(** * Library-management front end: session store, data gateway and
      store-inventory handlers

    A shallow embedding of
    - [src/services/api.js]            (module [Api]),
    - [src/contexts/AuthProvider.jsx]  (module [AuthProvider]) and its
      sibling implementation with a guarded restore (module [AuthProviderAlt]),
    - [src/pages/Inventory.jsx]        (module [Inventory]) and the
      StoreInventory handlers quoted in the implementation notes
      (module [InventoryNotes]),
    followed by the properties established about them (modules [JSFacts],
    [ApiFacts], [AuthFacts] and [InventoryFacts]).

    JavaScript values are modelled as the code uses them: strings are byte
    strings, identifiers are integers or [NaN], prices are exact decimals,
    objects are ordered key/value lists, [localStorage] is a finite map from
    keys to strings, and an exception is an explicit [Throw] completion. *)

From Stdlib Require Import ZArith Ascii String List Bool Lia DecimalString.
From stdpp Require Import base option list strings gmap.

Open Scope string_scope.
Open Scope Z_scope.

(* ===================================================================== *)
(** * The JavaScript fragment used by the sources                         *)
(* ===================================================================== *)

Module JS.

(** ** Strings *)

(** ASCII white space removed by [String.prototype.trim] and skipped by
    [parseInt]/[parseFloat]: TAB, LF, VT, FF, CR and SPACE. *)
Definition is_whitespace (c : ascii) : bool :=
  let n := nat_of_ascii c in
  ((9 <=? n)%nat && (n <=? 13)%nat) || (n =? 32)%nat.

Definition lower_char (c : ascii) : ascii :=
  let n := nat_of_ascii c in
  if ((65 <=? n)%nat && (n <=? 90)%nat)%bool then ascii_of_nat (n + 32) else c.

(** [s.toLowerCase()] on ASCII letters. *)
Fixpoint toLowerCase (s : string) : string :=
  match s with
  | EmptyString => EmptyString
  | String c s' => String (lower_char c) (toLowerCase s')
  end.

(** [s.startsWith(t)]. *)
Fixpoint startsWith (s t : string) : bool :=
  match t, s with
  | EmptyString, _ => true
  | String _ _, EmptyString => false
  | String b t', String a s' => Ascii.eqb a b && startsWith s' t'
  end.

(** [s.includes(t)]: [t] occurs in [s] as a contiguous substring. *)
Fixpoint includes (s t : string) : bool :=
  startsWith s t ||
  match s with
  | EmptyString => false
  | String _ s' => includes s' t
  end.

Fixpoint trimStart (s : string) : string :=
  match s with
  | EmptyString => EmptyString
  | String c s' => if is_whitespace c then trimStart s' else s
  end.

Fixpoint trimEnd (s : string) : string :=
  match s with
  | EmptyString => EmptyString
  | String c s' =>
      match trimEnd s' with
      | EmptyString => if is_whitespace c then EmptyString else String c EmptyString
      | r => String c r
      end
  end.

Definition trim (s : string) : string := trimEnd (trimStart s).

(** Truthiness of a string: every string but the empty one. *)
Definition truthy_string (s : string) : bool :=
  match s with EmptyString => false | String _ _ => true end.

(** [a || d] where [a] is a string or [undefined]. *)
Definition or_default (a : option string) (d : string) : string :=
  match a with
  | Some s => if truthy_string s then s else d
  | None => d
  end.

(** ** Numbers *)

(** An integer-valued number or [NaN], as produced by [parseInt]. *)
Inductive int_or_nan : Type :=
| NaNi
| Int (z : Z).

(** [a === b] on such numbers: [NaN] is different from itself. *)
Definition strict_eq_int (a b : int_or_nan) : bool :=
  match a, b with
  | Int x, Int y => (x =? y)
  | _, _ => false
  end.

(** A floating-point value kept as an exact decimal [m * 10^e]; the binary
    rounding of the engine is not represented. *)
Inductive number : Type :=
| NaN
| Infinity (negative : bool)
| Finite (m : Z) (e : Z).

(** [Number.isFinite(x) && x >= 0]. *)
Definition finite_non_negative (x : number) : bool :=
  match x with
  | Finite m _ => 0 <=? m
  | _ => false
  end.

(** Value of a digit character in bases up to 36. *)
Definition digit_value (c : ascii) : option Z :=
  let n := Z.of_nat (nat_of_ascii c) in
  if (48 <=? n) && (n <=? 57) then Some (n - 48)
  else if (97 <=? n) && (n <=? 122) then Some (n - 87)
  else if (65 <=? n) && (n <=? 90) then Some (n - 55)
  else None.

(** Longest prefix of digits in base [r], accumulated left to right;
    the second component tells whether a digit was read. *)
Fixpoint read_digits (r : Z) (s : string) (acc : Z) (seen : bool)
  : Z * bool * string :=
  match s with
  | EmptyString => (acc, seen, s)
  | String c s' =>
      match digit_value c with
      | Some d => if d <? r then read_digits r s' (acc * r + d) true
                  else (acc, seen, s)
      | None => (acc, seen, s)
      end
  end.

(** Optional sign: [(negative, rest)]. *)
Definition read_sign (s : string) : bool * string :=
  match s with
  | String "-" s' => (true, s')
  | String "+" s' => (false, s')
  | _ => (false, s)
  end.

Definition strip_hex_prefix (s : string) : option string :=
  match s with
  | String "0" (String "x" s') => Some s'
  | String "0" (String "X" s') => Some s'
  | _ => None
  end.

(** [parseInt(s, radix)], [radix = None] for the one-argument call. *)
Definition parseInt (s : string) (radix : option Z) : int_or_nan :=
  let '(neg, s1) := read_sign (trimStart s) in
  let R := match radix with Some r => r | None => 0 end in
  if negb (R =? 0) && ((R <? 2) || (36 <? R)) then NaNi
  else
    let '(R, s2) :=
      if (R =? 0) || (R =? 16) then
        match strip_hex_prefix s1 with
        | Some s' => (16, s')
        | None => (if R =? 0 then 10 else R, s1)
        end
      else (R, s1) in
    let '(v, seen, _) := read_digits R s2 0 false in
    if seen then Int (if neg then - v else v) else NaNi.

(** Digits of a fraction: value accumulated and count of digits. *)
Fixpoint read_fraction (s : string) (acc : Z) (n : Z) (seen : bool)
  : Z * Z * bool * string :=
  match s with
  | EmptyString => (acc, n, seen, s)
  | String c s' =>
      match digit_value c with
      | Some d => if d <? 10 then read_fraction s' (acc * 10 + d) (n + 1) true
                  else (acc, n, seen, s)
      | None => (acc, n, seen, s)
      end
  end.

(** Optional exponent part [e[+-]ddd]; ignored when no digit follows. *)
Definition read_exponent (s : string) : Z :=
  match s with
  | String c s' =>
      if (Ascii.eqb c "e" || Ascii.eqb c "E")%bool then
        let '(neg, s1) := read_sign s' in
        let '(v, seen, _) := read_digits 10 s1 0 false in
        if seen then (if neg then - v else v) else 0
      else 0
  | EmptyString => 0
  end.

(** [parseFloat(s)]: the longest decimal-literal prefix after leading
    white space, [NaN] when there is none. *)
Definition parseFloat (s : string) : number :=
  let '(neg, s1) := read_sign (trimStart s) in
  if startsWith s1 "Infinity" then Infinity neg
  else
    let '(ip, seen_i, s2) := read_digits 10 s1 0 false in
    let '(m, fd, seen_f, s3) :=
      match s2 with
      | String "." s' => read_fraction s' ip 0 false
      | _ => (ip, 0, false, s2)
      end in
    if seen_i || seen_f then
      let ex := read_exponent (if seen_f then s3
                               else match s2 with
                                    | String "." s' => s'
                                    | _ => s2
                                    end) in
      Finite (if neg then - m else m) (ex - fd)
    else NaN.

(** ** JSON values *)

#[warnings="-register-all"]
Inductive json : Type :=
| JNull
| JBool (b : bool)
| JNum (n : number)
| JStr (s : string)
| JArr (items : list json)
| JObj (fields : list (string * json)).

(** [Array.isArray(v)]. *)
Definition isArray (v : json) : bool :=
  match v with JArr _ => true | _ => false end.

(** The elements of a value already known to be an array. *)
Definition elements (v : json) : list json :=
  match v with JArr items => items | _ => [] end.

(** Truthiness of a JSON value ([!!v]). *)
Definition truthy (v : json) : bool :=
  match v with
  | JNull => false
  | JBool b => b
  | JNum NaN => false
  | JNum (Finite m _) => negb (m =? 0)
  | JNum (Infinity _) => true
  | JStr s => truthy_string s
  | JArr _ | JObj _ => true
  end.

(** Own property of an object literal, first binding of the key. *)
Fixpoint lookup_field (k : string) (fields : list (string * json)) : option json :=
  match fields with
  | [] => None
  | (k', v) :: rest => if String.eqb k' k then Some v else lookup_field k rest
  end.

(** ** Completions *)

Inductive error : Type :=
| TypeError (msg : string)
| SyntaxError (msg : string)
| Error (msg : string).

Inductive completion (A : Type) : Type :=
| Normal (a : A)
| Throw (e : error).
Arguments Normal {A} a.
Arguments Throw {A} e.

Definition bind {A B} (c : completion A) (k : A -> completion B) : completion B :=
  match c with
  | Normal a => k a
  | Throw e => Throw e
  end.

(** [try { body } catch (error) { handler(error) }]. *)
Definition try_catch {A} (body : completion A) (handler : error -> completion A)
  : completion A :=
  match body with
  | Normal a => Normal a
  | Throw e => handler e
  end.

(** [v.k] for a JSON value [v]: a [TypeError] on [null], [undefined]
    (here [None]) on primitives, arrays and objects without the key. *)
Definition get_property (v : json) (k : string) : completion (option json) :=
  match v with
  | JNull => Throw (TypeError ("Cannot read properties of null (reading '" +:+ k +:+ "')"))
  | JObj fields => Normal (lookup_field k fields)
  | _ => Normal None
  end.

(** [x === s] where [x] is a property value or [undefined] and [s] a string. *)
Definition strict_eq_string (x : option json) (s : string) : bool :=
  match x with
  | Some (JStr t) => String.eqb t s
  | _ => false
  end.

(** [xs.find(p)] for a predicate that may throw. *)
Fixpoint find {A} (p : A -> completion bool) (xs : list A) : completion (option A) :=
  match xs with
  | [] => Normal None
  | x :: rest =>
      bind (p x) (fun b => if b then Normal (Some x) else find p rest)
  end.

(** The two JSON built-ins of the host. [JSON_parse] answers [None] where
    the engine throws a [SyntaxError]. *)
Class JSON_builtins : Type := {
  JSON_parse : string -> option json;
  JSON_stringify : json -> string
}.

(** The quota of the host's [localStorage]: whether [setItem(k, v)] is
    accepted over the given contents; where it is not, [setItem] throws a
    [QuotaExceededError] and stores nothing. *)
Class Web_storage : Type := {
  setItem_accepts : gmap string string -> string -> string -> bool
}.

End JS.

#[global] Instance completion_ret : MRet JS.completion := @JS.Normal.
#[global] Instance completion_bind : MBind JS.completion :=
  fun A B k c => JS.bind c k.


Import JS.

(* ===================================================================== *)
(** * src/services/api.js                                                 *)
(* ===================================================================== *)

Module Api.

(** The three variables read from [import.meta.env]; [None] is [undefined]. *)
Record ImportMetaEnv : Type := {
  VITE_API_MODE : option string;
  VITE_MOCK_API_URL : option string;
  VITE_API_URL : option string
}.

Definition API_MODE (env : ImportMetaEnv) : string :=
  or_default (VITE_API_MODE env) "api".

Definition MOCK_API_URL (env : ImportMetaEnv) : string :=
  or_default (VITE_MOCK_API_URL env) "http://localhost:3001".

Definition BACKEND_API_URL (env : ImportMetaEnv) : string :=
  or_default (VITE_API_URL env) "https://your-backend-api.com/api".

(** What the code reads of a [Response]; [json_body = None] when the body
    is not JSON, so that [response.json()] rejects. *)
Record Response : Type := {
  ok : bool;
  statusText : string;
  json_body : option json
}.

(** The host's [fetch]: a rejected promise is a [Throw]. *)
Definition network : Type := string -> completion Response.

Definition response_json (r : Response) : completion json :=
  match json_body r with
  | Some v => Normal v
  | None => Throw (SyntaxError "Unexpected token in JSON")
  end.

(** The [if / else if / else] that selects [url] in [fetchData]. *)
Definition request_url (env : ImportMetaEnv) (endpoint : string) : string :=
  if String.eqb (API_MODE env) "api" then
    BACKEND_API_URL env +:+ "/" +:+ endpoint
  else if String.eqb (API_MODE env) "mock" then
    MOCK_API_URL env +:+ "/" +:+ endpoint
  else
    "/data/" +:+ endpoint +:+ ".json".

Definition fetchData (env : ImportMetaEnv) (fetch : network) (endpoint : string)
  : completion (list json) :=
  try_catch
    (let url := request_url env endpoint in
     response ← fetch url;
     if negb (ok response) then
       Throw (Error ("Failed to fetch " +:+ endpoint +:+ ": " +:+ statusText response))
     else
       data ← response_json response;
       Normal (if isArray data then elements data else [data]))
    (fun error => Normal []).

Definition getApiMode (env : ImportMetaEnv) : string := API_MODE env.
Definition isUsingMockServer (env : ImportMetaEnv) : bool :=
  String.eqb (API_MODE env) "mock".
Definition isUsingBackendAPI (env : ImportMetaEnv) : bool :=
  String.eqb (API_MODE env) "api".

End Api.

(* ===================================================================== *)
(** * src/contexts/AuthProvider.jsx                                       *)
(* ===================================================================== *)

Module AuthProvider.

(** The provider's [user] state and the browser's [localStorage]. *)
Record state : Type := {
  user : json;
  localStorage : gmap string string
}.

(** [useState(null)] over a given storage. *)
Definition initial (storage : gmap string string) : state :=
  {| user := JNull; localStorage := storage |}.

(** Computations over the session: the state reached when an exception is
    thrown is kept, as it is in the browser. *)
Definition eff (A : Type) : Type := state -> completion A * state.

#[global] Instance eff_ret : MRet eff := fun A a s => (Normal a, s).
#[global] Instance eff_bind : MBind eff := fun A B k m s =>
  match m s with
  | (Normal a, s') => k a s'
  | (Throw e, s') => (Throw e, s')
  end.

Definition eff_try {A} (body : eff A) (handler : error -> eff A) : eff A :=
  fun s =>
    match body s with
    | (Throw e, s') => handler e s'
    | r => r
    end.

(** A computation that does not touch the session ([await] included). *)
Definition lift {A} (c : completion A) : eff A := fun s => (c, s).

Definition setUser (v : json) : eff unit :=
  fun s => (Normal tt, {| user := v; localStorage := localStorage s |}).

Definition getItem (k : string) : eff (option string) :=
  fun s => (Normal (localStorage s !! k), s).

(** [localStorage.setItem(k, v)]: the text is stored, or the host refuses
    the write, throws, and stores nothing. *)
Definition setItem `{Web_storage} (k v : string) : eff unit :=
  fun s =>
    if setItem_accepts (localStorage s) k v then
      (Normal tt, {| user := user s; localStorage := <[k := v]> (localStorage s) |})
    else (Throw (Error "QuotaExceededError"), s).

Definition removeItem (k : string) : eff unit :=
  fun s => (Normal tt, {| user := user s; localStorage := delete k (localStorage s) |}).

(** [isAuthenticated: !!user]. *)
Definition isAuthenticated (s : state) : bool := truthy (user s).

(** [const { password: _, ...userWithoutPassword } = foundUser]. *)
Definition without_password (foundUser : json) : json :=
  match foundUser with
  | JObj fields =>
      JObj (List.filter (fun kv => negb (String.eqb (fst kv) "password")) fields)
  | _ => JObj []
  end.

(** The predicate given to [users.find]. *)
Definition credentials_match (username password : string) (u : json)
  : completion bool :=
  name ← get_property u "username";
  if strict_eq_string name username then
    pass ← get_property u "password";
    Normal (strict_eq_string pass password)
  else Normal false.

Section WithHost.
Context `{JSON_builtins} `{Web_storage}.

(** [JSON.parse(text)] as a completion. *)
Definition parse (text : string) : completion json :=
  match JSON_parse text with
  | Some v => Normal v
  | None => Throw (SyntaxError "JSON.parse")
  end.

(** The mount effect: restore the session from [localStorage]. *)
Definition restore : eff unit :=
  savedUser ← getItem "user";
  match savedUser with
  | Some text =>
      if truthy_string text then
        v ← lift (parse text);
        setUser v
      else mret tt
  | None => mret tt
  end.

Definition login (env : Api.ImportMetaEnv) (fetch : Api.network)
    (username password : string) : eff bool :=
  eff_try
    (users ← lift (Api.fetchData env fetch "users");
     foundUser ← lift (find (credentials_match username password) users);
     match foundUser with
     | Some found =>
         if truthy found then
           let userWithoutPassword := without_password found in
           setUser userWithoutPassword;;
           setItem "user" (JSON_stringify userWithoutPassword);;
           mret true
         else mret false
     | None => mret false
     end)
    (fun error => mret false).

End WithHost.

Definition logout : eff unit :=
  setUser JNull;;
  removeItem "user".

End AuthProvider.

(* ===================================================================== *)
(** * The sibling AuthProvider (guarded restore, projected identity)      *)
(* ===================================================================== *)

Module AuthProviderAlt.

Import AuthProvider.

Definition storage_key : string := "authenticatedUser".

(** [const isAuthenticated = user !== null]. *)
Definition isAuthenticated (s : state) : bool :=
  match user s with JNull => false | _ => true end.

(** An object literal whose property values may be [undefined]; such
    properties read back as [undefined] and are skipped by
    [JSON.stringify], so they are left out of the field list. *)
Definition object_literal (props : list (string * option json)) : json :=
  JObj (omap (fun kv => match snd kv with
                        | Some v => Some (fst kv, v)
                        | None => None
                        end) props).

(** [foundUser.k] where [foundUser] satisfied the [find] predicate. *)
Definition property_or_undefined (v : json) (k : string) : option json :=
  match v with
  | JObj fields => lookup_field k fields
  | _ => None
  end.

Definition authenticatedUser (foundUser : json) : json :=
  object_literal
    [ ("id", property_or_undefined foundUser "id");
      ("username", property_or_undefined foundUser "username");
      ("name", property_or_undefined foundUser "name");
      ("email", property_or_undefined foundUser "email") ].

(** [usersData.find(p)]: a [TypeError] unless [usersData] is an array. *)
Definition find_in (p : json -> completion bool) (usersData : json)
  : completion (option json) :=
  match usersData with
  | JArr items => find p items
  | _ => Throw (TypeError "usersData.find is not a function")
  end.

Section WithHost.
Context `{JSON_builtins} `{Web_storage}.

Definition restore : eff unit :=
  storedUser ← getItem storage_key;
  match storedUser with
  | Some text =>
      if truthy_string text then
        eff_try
          (v ← lift (parse text);
           setUser v)
          (fun err => removeItem storage_key)
      else mret tt
  | None => mret tt
  end.

Definition login (fetch : Api.network) (username password : string) : eff bool :=
  eff_try
    (response ← lift (fetch "/data/users.json");
     usersData ← lift (Api.response_json response);
     foundUser ← lift (find_in (credentials_match username password) usersData);
     match foundUser with
     | Some found =>
         if truthy found then
           let authenticated := authenticatedUser found in
           setUser authenticated;;
           setItem storage_key (JSON_stringify authenticated);;
           mret true
         else mret false
     | None => mret false
     end)
    (fun error => mret false).

End WithHost.

Definition logout : eff unit :=
  setUser JNull;;
  removeItem storage_key.

End AuthProviderAlt.

(* ===================================================================== *)
(** * src/pages/Inventory.jsx                                             *)
(* ===================================================================== *)

Module Item.
(** A row of the inventory collection. *)
Record t : Type := {
  id : Z;
  store_id : int_or_nan;
  book_id : int_or_nan;
  price : number
}.

(** [{ ...item, price: newPrice }]. *)
Definition with_price (item : t) (newPrice : number) : t :=
  {| id := id item; store_id := store_id item; book_id := book_id item;
     price := newPrice |}.
End Item.

Module Book.
(** A catalog book. *)
Record t : Type := {
  id : Z;
  name : string;
  author_id : Z;
  page_count : Z
}.
End Book.

Module Author.
Record t : Type := {
  id : Z;
  name : string
}.
End Author.

Module StoreBook.
(** A row of the displayed table ([row.original]): a catalog book joined
    with its price in the store. *)
Record t : Type := {
  id : Z;
  name : string;
  page_count : Z;
  author_id : Z;
  price : number
}.
End StoreBook.

Module Inventory.

(** [xs.includes(x)] on numbers (SameValueZero: [NaN] is found). *)
Definition same_value_zero (a b : int_or_nan) : bool :=
  match a, b with
  | NaNi, NaNi => true
  | Int x, Int y => x =? y
  | _, _ => false
  end.

Definition array_includes (xs : list int_or_nan) (x : int_or_nan) : bool :=
  existsb (fun y => same_value_zero y x) xs.

(** [xs.slice(0, n)]. *)
Definition slice0 {A} (n : nat) (xs : list A) : list A := firstn n xs.

(** Route parameter, session flag, data of [useLibraryData] and the
    component's own [useState] cells. *)
Record state : Type := {
  storeId : string;
  isAuthenticated : bool;
  inventory : list Item.t;
  books : list Book.t;
  authorMap : gmap Z Author.t;
  showAddModal : bool;
  showEditModal : bool;
  showDeleteModal : bool;
  editingBook : option StoreBook.t;
  editPrice : string;
  deletingBook : option StoreBook.t;
  selectedBookId : string;
  newPrice : string;
  bookSearchTerm : string
}.

Definition setInventory (inv : list Item.t) (st : state) : state :=
  {| storeId := storeId st; isAuthenticated := isAuthenticated st;
     inventory := inv; books := books st; authorMap := authorMap st;
     showAddModal := showAddModal st; showEditModal := showEditModal st;
     showDeleteModal := showDeleteModal st;
     editingBook := editingBook st; editPrice := editPrice st;
     deletingBook := deletingBook st;
     selectedBookId := selectedBookId st; newPrice := newPrice st;
     bookSearchTerm := bookSearchTerm st |}.

(** [onChange] of the book select, the price field and the search field
    of the add dialog. *)
Definition setSelectedBookId (v : string) (st : state) : state :=
  {| storeId := storeId st; isAuthenticated := isAuthenticated st;
     inventory := inventory st; books := books st; authorMap := authorMap st;
     showAddModal := showAddModal st; showEditModal := showEditModal st;
     showDeleteModal := showDeleteModal st;
     editingBook := editingBook st; editPrice := editPrice st;
     deletingBook := deletingBook st;
     selectedBookId := v; newPrice := newPrice st;
     bookSearchTerm := bookSearchTerm st |}.

Definition setNewPrice (v : string) (st : state) : state :=
  {| storeId := storeId st; isAuthenticated := isAuthenticated st;
     inventory := inventory st; books := books st; authorMap := authorMap st;
     showAddModal := showAddModal st; showEditModal := showEditModal st;
     showDeleteModal := showDeleteModal st;
     editingBook := editingBook st; editPrice := editPrice st;
     deletingBook := deletingBook st;
     selectedBookId := selectedBookId st; newPrice := v;
     bookSearchTerm := bookSearchTerm st |}.

Definition setBookSearchTerm (v : string) (st : state) : state :=
  {| storeId := storeId st; isAuthenticated := isAuthenticated st;
     inventory := inventory st; books := books st; authorMap := authorMap st;
     showAddModal := showAddModal st; showEditModal := showEditModal st;
     showDeleteModal := showDeleteModal st;
     editingBook := editingBook st; editPrice := editPrice st;
     deletingBook := deletingBook st;
     selectedBookId := selectedBookId st; newPrice := newPrice st;
     bookSearchTerm := v |}.

(** [onChange] of the price field of the edit dialog. *)
Definition setEditPrice (v : string) (st : state) : state :=
  {| storeId := storeId st; isAuthenticated := isAuthenticated st;
     inventory := inventory st; books := books st; authorMap := authorMap st;
     showAddModal := showAddModal st; showEditModal := showEditModal st;
     showDeleteModal := showDeleteModal st;
     editingBook := editingBook st; editPrice := v;
     deletingBook := deletingBook st;
     selectedBookId := selectedBookId st; newPrice := newPrice st;
     bookSearchTerm := bookSearchTerm st |}.

Definition openAddModal (st : state) : state :=
  {| storeId := storeId st; isAuthenticated := isAuthenticated st;
     inventory := inventory st; books := books st; authorMap := authorMap st;
     showAddModal := true; showEditModal := showEditModal st;
     showDeleteModal := showDeleteModal st;
     editingBook := editingBook st; editPrice := editPrice st;
     deletingBook := deletingBook st;
     selectedBookId := selectedBookId st; newPrice := newPrice st;
     bookSearchTerm := bookSearchTerm st |}.

Definition closeAddModal (st : state) : state :=
  {| storeId := storeId st; isAuthenticated := isAuthenticated st;
     inventory := inventory st; books := books st; authorMap := authorMap st;
     showAddModal := false; showEditModal := showEditModal st;
     showDeleteModal := showDeleteModal st;
     editingBook := editingBook st; editPrice := editPrice st;
     deletingBook := deletingBook st;
     selectedBookId := EmptyString; newPrice := EmptyString;
     bookSearchTerm := EmptyString |}.

(** [priceText] is the text [book.price.toString()] puts in the field. *)
Definition openEditModal (book : StoreBook.t) (priceText : string) (st : state)
  : state :=
  {| storeId := storeId st; isAuthenticated := isAuthenticated st;
     inventory := inventory st; books := books st; authorMap := authorMap st;
     showAddModal := showAddModal st; showEditModal := true;
     showDeleteModal := showDeleteModal st;
     editingBook := Some book; editPrice := priceText;
     deletingBook := deletingBook st;
     selectedBookId := selectedBookId st; newPrice := newPrice st;
     bookSearchTerm := bookSearchTerm st |}.

Definition closeEditModal (st : state) : state :=
  {| storeId := storeId st; isAuthenticated := isAuthenticated st;
     inventory := inventory st; books := books st; authorMap := authorMap st;
     showAddModal := showAddModal st; showEditModal := false;
     showDeleteModal := showDeleteModal st;
     editingBook := None; editPrice := EmptyString;
     deletingBook := deletingBook st;
     selectedBookId := selectedBookId st; newPrice := newPrice st;
     bookSearchTerm := bookSearchTerm st |}.

Definition openDeleteModal (book : StoreBook.t) (st : state) : state :=
  {| storeId := storeId st; isAuthenticated := isAuthenticated st;
     inventory := inventory st; books := books st; authorMap := authorMap st;
     showAddModal := showAddModal st; showEditModal := showEditModal st;
     showDeleteModal := true;
     editingBook := editingBook st; editPrice := editPrice st;
     deletingBook := Some book;
     selectedBookId := selectedBookId st; newPrice := newPrice st;
     bookSearchTerm := bookSearchTerm st |}.

Definition closeDeleteModal (st : state) : state :=
  {| storeId := storeId st; isAuthenticated := isAuthenticated st;
     inventory := inventory st; books := books st; authorMap := authorMap st;
     showAddModal := showAddModal st; showEditModal := showEditModal st;
     showDeleteModal := false;
     editingBook := editingBook st; editPrice := editPrice st;
     deletingBook := None;
     selectedBookId := selectedBookId st; newPrice := newPrice st;
     bookSearchTerm := bookSearchTerm st |}.

(** The object literal built by [handleAddBook]. *)
Definition newItem (st : state) : Item.t :=
  {| Item.id := Z.of_nat (length (inventory st)) + 1;
     Item.store_id := parseInt (storeId st) None;
     Item.book_id := parseInt (selectedBookId st) None;
     Item.price := parseFloat (newPrice st) |}.

Definition handleAddBook (st : state) : state :=
  if truthy_string (selectedBookId st) && truthy_string (newPrice st) then
    closeAddModal (setInventory (inventory st ++ [newItem st]) st)
  else st.

(** The test shared by [handleEditPrice] and [handleDeleteBook]. *)
Definition is_entry (st : state) (bookId : Z) (item : Item.t) : bool :=
  strict_eq_int (Item.store_id item) (parseInt (storeId st) (Some 10))
  && strict_eq_int (Item.book_id item) (Int bookId).

Definition handleEditPrice (bookId : Z) (newPrice : number) (st : state) : state :=
  let updatedInventory :=
    map (fun item =>
           if is_entry st bookId item then Item.with_price item newPrice
           else item)
        (inventory st) in
  setInventory updatedInventory st.

Definition handleSaveEdit (st : state) : state :=
  match editingBook st with
  | Some book =>
      if truthy_string (editPrice st) then
        closeEditModal
          (handleEditPrice (StoreBook.id book) (parseFloat (editPrice st)) st)
      else st
  | None => st
  end.

Definition handleDeleteBook (bookId : Z) (st : state) : state :=
  let updatedInventory :=
    List.filter (fun item => negb (is_entry st bookId item)) (inventory st) in
  closeDeleteModal (setInventory updatedInventory st).

Definition confirmDelete (st : state) : state :=
  match deletingBook st with
  | Some book => handleDeleteBook (StoreBook.id book) st
  | None => st
  end.

Definition booksInStore (st : state) : list int_or_nan :=
  map Item.book_id
      (List.filter
         (fun item => strict_eq_int (Item.store_id item)
                                    (parseInt (storeId st) (Some 10)))
         (inventory st)).

Definition availableBooks (st : state) : list Book.t :=
  List.filter
    (fun book => negb (array_includes (booksInStore st) (Int (Book.id book))))
    (books st).

Definition filteredAvailableBooks (st : state) : list Book.t :=
  let filtered :=
    if truthy_string (trim (bookSearchTerm st)) then
      List.filter
        (fun book => includes (toLowerCase (Book.name book))
                              (toLowerCase (bookSearchTerm st)))
        (availableBooks st)
    else availableBooks st in
  (* Limit to 7 books *)
  slice0 7 filtered.

(** The buttons a cell of the table can render through [TableActions]. *)
Inductive row_action : Type :=
| EditRow
| DeleteRow.

(** A table column: its header, its [accessorKey] or [id], the row
    actions its cell offers and the [disabled] flag handed to them. *)
Record column : Type := {
  header : string;
  key : string;
  offers : list row_action;
  disabled : bool
}.

Definition data_column (h k : string) : column :=
  {| header := h; key := k; offers := []; disabled := false |}.

Definition baseColumns : list column :=
  [ data_column "Book Id" "id";
    data_column "Name" "name";
    data_column "Pages" "page_count";
    data_column "Author" "author_name";
    data_column "Price" "price" ].

Definition actionsColumn (st : state) : column :=
  {| header := "Actions"; key := "actions";
     offers := [EditRow; DeleteRow];
     disabled := negb (isAuthenticated st) |}.

Definition columns (st : state) : list column :=
  if isAuthenticated st then baseColumns ++ [actionsColumn st]
  else baseColumns.

(** [onEdit] and [onDelete] of a row; [priceText] is the row's price as
    text. *)
Definition row_click (a : row_action) (book : StoreBook.t) (priceText : string)
    (st : state) : state :=
  match a with
  | EditRow => openEditModal book priceText st
  | DeleteRow => openDeleteModal book st
  end.

(** The author cell: [authorMap[author_id]?.name || "Unknown"]. *)
Definition author_cell (st : state) (author_id : Z) : string :=
  or_default (Author.name <$> authorMap st !! author_id) "Unknown".

End Inventory.

(* ===================================================================== *)
(** * The StoreInventory handlers quoted in the implementation notes      *)
(* ===================================================================== *)

Module NotesRow.
(** A row of [storeBooks] in the notes: an inventory row joined with its
    book. *)
Record t : Type := {
  id : Z;
  store_id : int_or_nan;
  book_id : Z;
  price : number;
  name : string;
  author_name : option string;
  page_count : Z
}.

(** [{ ...book, price: newPrice }]. *)
Definition with_price (row : t) (newPrice : number) : t :=
  {| id := id row; store_id := store_id row; book_id := book_id row;
     price := newPrice; name := name row; author_name := author_name row;
     page_count := page_count row |}.
End NotesRow.

Module NotesBook.
(** A catalog book as the notes' handlers read it; [author_name] may be
    [undefined]. *)
Record t : Type := {
  book_id : Z;
  name : string;
  author_name : option string;
  page_count : Z
}.
End NotesBook.

Module InventoryNotes.

Record state : Type := {
  storeId : string;
  storeBooks : list NotesRow.t;
  books : list NotesBook.t;
  showAddModal : bool;
  showEditModal : bool;
  showDeleteModal : bool;
  editingBook : option NotesRow.t;
  deletingBook : option NotesRow.t;
  selectedBookId : string;
  newPrice : string;
  bookSearchTerm : string
}.

(** [Math.max(...ids, 0)]. *)
Definition Math_max0 (ids : list Z) : Z := fold_right Z.max 0 ids.

(** [Math.max(...storeBooks.map((b) => b.id), 0) + 1]. *)
Definition new_id (ids : list Z) : Z := Math_max0 ids + 1.

(** [new Set(storeBooks.map((item) => item.book_id))] and its [has]. *)
Definition currentBookIds (st : state) : list Z :=
  map NotesRow.book_id (storeBooks st).

Definition availableBooks (st : state) : list NotesBook.t :=
  List.filter
    (fun book => negb (existsb (Z.eqb (NotesBook.book_id book)) (currentBookIds st)))
    (books st).

(** The filter of [filteredAvailableBooks]; on an [undefined] author name
    the optional chain is falsy. *)
Definition matches (term : string) (book : NotesBook.t) : bool :=
  includes (toLowerCase (NotesBook.name book)) (toLowerCase term)
  || match NotesBook.author_name book with
     | Some a => includes (toLowerCase a) (toLowerCase term)
     | None => false
     end.

Definition filteredAvailableBooks (st : state) : list NotesBook.t :=
  let filtered :=
    if truthy_string (bookSearchTerm st) then
      List.filter (matches (bookSearchTerm st)) (availableBooks st)
    else availableBooks st in
  firstn 7 filtered.

Definition newItem (st : state) (book : NotesBook.t) : NotesRow.t :=
  {| NotesRow.id := new_id (map NotesRow.id (storeBooks st));
     NotesRow.store_id := parseInt (storeId st) None;
     NotesRow.book_id := NotesBook.book_id book;
     NotesRow.price := parseFloat (newPrice st);
     NotesRow.name := NotesBook.name book;
     NotesRow.author_name := NotesBook.author_name book;
     NotesRow.page_count := NotesBook.page_count book |}.

(** Reading [book.book_id] throws when [find] gave [undefined]. *)
Definition handleAddBook (st : state) : completion state :=
  if truthy_string (selectedBookId st) && truthy_string (newPrice st) then
    match List.find
            (fun b => strict_eq_int (Int (NotesBook.book_id b))
                                    (parseInt (selectedBookId st) None))
            (books st) with
    | Some book =>
        Normal {| storeId := storeId st;
                  storeBooks := storeBooks st ++ [newItem st book];
                  books := books st;
                  showAddModal := false;
                  showEditModal := showEditModal st;
                  showDeleteModal := showDeleteModal st;
                  editingBook := editingBook st;
                  deletingBook := deletingBook st;
                  selectedBookId := EmptyString;
                  newPrice := EmptyString;
                  bookSearchTerm := bookSearchTerm st |}
    | None =>
        Throw (TypeError "Cannot read properties of undefined (reading 'book_id')")
    end
  else Normal st.

Definition handleEditPrice (st : state) : state :=
  match editingBook st with
  | Some editing =>
      if truthy_string (newPrice st) then
        {| storeId := storeId st;
           storeBooks :=
             map (fun book =>
                    if NotesRow.id book =? NotesRow.id editing
                    then NotesRow.with_price book (parseFloat (newPrice st))
                    else book)
                 (storeBooks st);
           books := books st;
           showAddModal := showAddModal st;
           showEditModal := false;
           showDeleteModal := showDeleteModal st;
           editingBook := None;
           deletingBook := deletingBook st;
           selectedBookId := selectedBookId st;
           newPrice := EmptyString;
           bookSearchTerm := bookSearchTerm st |}
      else st
  | None => st
  end.

Definition handleDeleteBook (st : state) : state :=
  match deletingBook st with
  | Some deleting =>
      {| storeId := storeId st;
         storeBooks :=
           List.filter (fun book => negb (NotesRow.id book =? NotesRow.id deleting))
                       (storeBooks st);
         books := books st;
         showAddModal := showAddModal st;
         showEditModal := showEditModal st;
         showDeleteModal := false;
         editingBook := editingBook st;
         deletingBook := None;
         selectedBookId := selectedBookId st;
         newPrice := newPrice st;
         bookSearchTerm := bookSearchTerm st |}
  | None => st
  end.

End InventoryNotes.

(* ===================================================================== *)
(** * A reference implementation of the JSON built-ins                    *)
(* ===================================================================== *)

(** Used to run the session store on concrete storage contents. Numbers are
    written as an integer mantissa with an exponent part, strings hold bytes
    and [\u] escapes are not accepted. *)
Module ReferenceJSON.

Definition dquote : ascii := ascii_of_nat 34.
Definition backslash : ascii := ascii_of_nat 92.

Definition string_of_Z (z : Z) : string :=
  DecimalString.NilZero.string_of_int (Z.to_int z).

Definition escape_char (c : ascii) : string :=
  let n := nat_of_ascii c in
  if (Ascii.eqb c dquote || Ascii.eqb c backslash)%bool
  then String backslash (String c EmptyString)
  else if (n =? 10)%nat then String backslash "n"
  else if (n =? 13)%nat then String backslash "r"
  else if (n =? 9)%nat then String backslash "t"
  else String c EmptyString.

Fixpoint escape (s : string) : string :=
  match s with
  | EmptyString => EmptyString
  | String c s' => escape_char c +:+ escape s'
  end.

Definition quote (s : string) : string :=
  String dquote (escape s +:+ String dquote EmptyString).

Definition number_text (n : number) : string :=
  match n with
  | Finite m e => if e =? 0 then string_of_Z m
                  else string_of_Z m +:+ "e" +:+ string_of_Z e
  | _ => "null"
  end.

Definition join (sep : string) (parts : list string) : string :=
  match parts with
  | [] => EmptyString
  | p :: rest => fold_left (fun acc q => acc +:+ sep +:+ q) rest p
  end.

Fixpoint stringify (v : json) : string :=
  match v with
  | JNull => "null"
  | JBool true => "true"
  | JBool false => "false"
  | JNum n => number_text n
  | JStr s => quote s
  | JArr items => "[" +:+ join "," (map stringify items) +:+ "]"
  | JObj fields =>
      "{" +:+ join "," (map (fun kv => quote (fst kv) +:+ ":" +:+ stringify (snd kv))
                            fields) +:+ "}"
  end.

Fixpoint drop (n : nat) (s : string) : string :=
  match n, s with
  | S n', String _ s' => drop n' s'
  | _, _ => s
  end.

Definition unescape (e : ascii) : option ascii :=
  if Ascii.eqb e "n" then Some (ascii_of_nat 10)
  else if Ascii.eqb e "r" then Some (ascii_of_nat 13)
  else if Ascii.eqb e "t" then Some (ascii_of_nat 9)
  else if Ascii.eqb e "b" then Some (ascii_of_nat 8)
  else if Ascii.eqb e "f" then Some (ascii_of_nat 12)
  else if (Ascii.eqb e dquote || Ascii.eqb e backslash || Ascii.eqb e "/")%bool
  then Some e
  else None.

(** Body of a string literal after the opening quote. *)
Fixpoint read_string (s : string) : option (string * string) :=
  match s with
  | EmptyString => None
  | String c s' =>
      if Ascii.eqb c dquote then Some (EmptyString, s')
      else if Ascii.eqb c backslash then
        match s' with
        | String e s'' =>
            match unescape e, read_string s'' with
            | Some u, Some (body, rest) => Some (String u body, rest)
            | _, _ => None
            end
        | EmptyString => None
        end
      else if (nat_of_ascii c <? 32)%nat then None
      else
        match read_string s' with
        | Some (body, rest) => Some (String c body, rest)
        | None => None
        end
  end.

(** A number literal: [-? int frac? exp?]. *)
Definition read_number (s : string) : option (number * string) :=
  let '(neg, s1) := match s with
                    | String "-" s' => (true, s')
                    | _ => (false, s)
                    end in
  let '(ip, seen_i, s2) := read_digits 10 s1 0 false in
  let leading_zero :=
    match s1 with
    | String "0" (String d _) =>
        match digit_value d with Some v => v <? 10 | None => false end
    | _ => false
    end in
  if negb seen_i || leading_zero then None
  else
    let '(m, fd, s3) :=
      match s2 with
      | String "." s' =>
          let '(m, fd, seen_f, s3) := read_fraction s' ip 0 false in
          if seen_f then (Some m, fd, s3) else (None, 0, s2)
      | _ => (Some ip, 0, s2)
      end in
    match m with
    | None => None
    | Some m =>
        match s3 with
        | String c s' =>
            if (Ascii.eqb c "e" || Ascii.eqb c "E")%bool then
              let '(eneg, s4) := read_sign s' in
              let '(ev, seen_e, s5) := read_digits 10 s4 0 false in
              if seen_e
              then Some (Finite (if neg then - m else m)
                                ((if eneg then - ev else ev) - fd), s5)
              else None
            else Some (Finite (if neg then - m else m) (- fd), s3)
        | EmptyString => Some (Finite (if neg then - m else m) (- fd), s3)
        end
    end.

Fixpoint read_value (fuel : nat) (s : string) {struct fuel} : option (json * string) :=
  match fuel with
  | O => None
  | S fuel' =>
      let s := trimStart s in
      if startsWith s "null" then Some (JNull, drop 4 s)
      else if startsWith s "true" then Some (JBool true, drop 4 s)
      else if startsWith s "false" then Some (JBool false, drop 5 s)
      else
        match s with
        | String c s' =>
            if Ascii.eqb c dquote then
              match read_string s' with
              | Some (body, rest) => Some (JStr body, rest)
              | None => None
              end
            else if Ascii.eqb c "[" then
              match trimStart s' with
              | String "]" rest => Some (JArr [], rest)
              | _ =>
                  match read_items fuel' s' with
                  | Some (items, rest) => Some (JArr items, rest)
                  | None => None
                  end
              end
            else if Ascii.eqb c "{" then
              match trimStart s' with
              | String "}" rest => Some (JObj [], rest)
              | _ =>
                  match read_members fuel' s' with
                  | Some (fields, rest) => Some (JObj fields, rest)
                  | None => None
                  end
              end
            else
              match read_number s with
              | Some (n, rest) => Some (JNum n, rest)
              | None => None
              end
        | EmptyString => None
        end
  end
with read_items (fuel : nat) (s : string) {struct fuel} : option (list json * string) :=
  match fuel with
  | O => None
  | S fuel' =>
      match read_value fuel' s with
      | Some (v, rest) =>
          match trimStart rest with
          | String "," rest' =>
              match read_items fuel' rest' with
              | Some (vs, rest'') => Some (v :: vs, rest'')
              | None => None
              end
          | String "]" rest' => Some ([v], rest')
          | _ => None
          end
      | None => None
      end
  end
with read_members (fuel : nat) (s : string) {struct fuel}
  : option (list (string * json) * string) :=
  match fuel with
  | O => None
  | S fuel' =>
      match trimStart s with
      | String c s' =>
          if Ascii.eqb c dquote then
            match read_string s' with
            | Some (k, rest) =>
                match trimStart rest with
                | String ":" rest1 =>
                    match read_value fuel' rest1 with
                    | Some (v, rest2) =>
                        match trimStart rest2 with
                        | String "," rest3 =>
                            match read_members fuel' rest3 with
                            | Some (kvs, rest4) => Some ((k, v) :: kvs, rest4)
                            | None => None
                            end
                        | String "}" rest3 => Some ([(k, v)], rest3)
                        | _ => None
                        end
                    | None => None
                    end
                | _ => None
                end
            | None => None
            end
          else None
      | EmptyString => None
      end
  end.

Definition parse_text (s : string) : option json :=
  match read_value (2 * String.length s + 2) s with
  | Some (v, rest) =>
      match trimStart rest with
      | EmptyString => Some v
      | _ => None
      end
  | None => None
  end.

#[global] Instance builtins : JSON_builtins :=
  {| JSON_parse := parse_text; JSON_stringify := stringify |}.

End ReferenceJSON.

(** Two storage hosts: one that accepts every write, and one whose quota is
    exhausted. *)
Module ReferenceStorage.

#[global] Instance unbounded : Web_storage :=
  {| setItem_accepts := fun _ _ _ => true |}.

Definition exhausted : Web_storage :=
  {| setItem_accepts := fun _ _ _ => false |}.

End ReferenceStorage.

(* ===================================================================== *)
(** * src/components/BooksTable.jsx                                       *)
(* ===================================================================== *)

Module AuthorRecord.
(** An author as the books table reads it. *)
Record t : Type := {
  id : Z;
  first_name : string;
  last_name : string
}.
End AuthorRecord.

Module EnrichedBook.
(** [{ ...book, author_name }]. *)
Record t : Type := {
  book : Book.t;
  author_name : string
}.
End EnrichedBook.

Module BooksTable.

(** The props of the component; [books], [editingRowId] and [editName] are
    cells of the parent, written through [setBooks], [setEditingRowId] and
    [setEditName]. [isAuthenticated = None] is the omitted prop. *)
Record props : Type := {
  books : list Book.t;
  authors : list AuthorRecord.t;
  editingRowId : option Z;
  editName : string;
  isAuthenticated : option bool
}.

(** The template literal [`${author.first_name} ${author.last_name}`]. *)
Definition full_name (author : AuthorRecord.t) : string :=
  AuthorRecord.first_name author +:+ " " +:+ AuthorRecord.last_name author.

(** [authors.reduce((map, author) => { map[author.id] = ...; return map }, {})]. *)
Definition authorMap (authors : list AuthorRecord.t) : gmap Z string :=
  fold_left (fun map author => <[AuthorRecord.id author := full_name author]> map)
            authors ∅.

Definition enrichedBooks (p : props) : list EnrichedBook.t :=
  map (fun book =>
         {| EnrichedBook.book := book;
            EnrichedBook.author_name :=
              or_default (authorMap (authors p) !! Book.author_id book)
                         "Unknown Author" |})
      (books p).

(** [{ ...book, name: editName }]. *)
Definition with_name (book : Book.t) (newName : string) : Book.t :=
  {| Book.id := Book.id book; Book.name := newName;
     Book.author_id := Book.author_id book;
     Book.page_count := Book.page_count book |}.

Definition handleEdit (row : EnrichedBook.t) (p : props) : props :=
  {| books := books p; authors := authors p;
     editingRowId := Some (Book.id (EnrichedBook.book row));
     editName := Book.name (EnrichedBook.book row);
     isAuthenticated := isAuthenticated p |}.

Definition handleSave (id : Z) (p : props) : props :=
  {| books := map (fun book => if Book.id book =? id
                               then with_name book (editName p) else book)
                  (books p);
     authors := authors p;
     editingRowId := None;
     editName := EmptyString;
     isAuthenticated := isAuthenticated p |}.

Definition handleCancel (p : props) : props :=
  {| books := books p; authors := authors p;
     editingRowId := None; editName := EmptyString;
     isAuthenticated := isAuthenticated p |}.

(** [onChange] of the name input. *)
Definition setEditName (v : string) (p : props) : props :=
  {| books := books p; authors := authors p;
     editingRowId := editingRowId p; editName := v;
     isAuthenticated := isAuthenticated p |}.

(** [onKeyDown] of the name input of a row. *)
Definition onKeyDown (key : string) (row : EnrichedBook.t) (p : props) : props :=
  if String.eqb key "Enter" then handleSave (Book.id (EnrichedBook.book row)) p
  else if String.eqb key "Escape" then handleCancel p
  else p.

(** [onEdit] of a row: cancel when the row is being edited, edit otherwise. *)
Definition onEdit (row : EnrichedBook.t) (p : props) : props :=
  match editingRowId p with
  | Some editing =>
      if editing =? Book.id (EnrichedBook.book row) then handleCancel p
      else handleEdit row p
  | None => handleEdit row p
  end.

(** The column headers; the default of the omitted prop is [true]. *)
Definition columns (p : props) : list string :=
  let baseColumns := ["Book Id"; "Name"; "Pages"; "Author"] in
  if default true (isAuthenticated p) then baseColumns ++ ["Actions"]
  else baseColumns.

End BooksTable.

(* ===================================================================== *)
(** * src/components/Topbar.jsx                                           *)
(* ===================================================================== *)

Module Topbar.

(** The [title] object, as its own properties in source order; paths start
    with a slash, so no inherited property is ever looked up. *)
Definition title : list (string * (string * string)) :=
  [ ("/", ("Shop", "Shop > Books"));
    ("/stores", ("Stores", "Admin > Stores"));
    ("/author", ("Authors", "Admin > Authors"));
    ("/books", ("Books", "Admin > Books"));
    ("/store/:storeId", ("Store Inventory", "Admin > Store Inventory"));
    ("/browsebooks", ("Browse Books", "Shop > Books"));
    ("/browseauthors", ("Browse Authors", "Shop > Authors")) ].

(** [title[path]]. *)
Fixpoint entry_of (entries : list (string * (string * string))) (path : string)
  : option (string * string) :=
  match entries with
  | [] => None
  | (k, v) :: rest => if String.eqb k path then Some v else entry_of rest path
  end.

(** [title[path]?.title] and [title[path]?.subtitle]. *)
Definition shown_title (path : string) : option string :=
  fst <$> entry_of title path.

Definition shown_subtitle (path : string) : option string :=
  snd <$> entry_of title path.

(** The session of the provider and the router's location. *)
Record view : Type := {
  session : AuthProvider.state;
  pathname : string
}.

(** [logout(); navigate("/")]. *)
Definition handleLogout (v : view) : view :=
  {| session := snd (AuthProvider.logout (session v)); pathname := "/" |}.

(** What the right-hand side renders. *)
Inductive account_area : Type :=
| Profile (name : option json)
| SignIn.

(** Whether React accepts a JSON value as a child of an element: text and
    numbers are shown, [null] and booleans show nothing, an array is taken
    child by child, and a plain object is refused. *)
Fixpoint renderable (child : json) : bool :=
  match child with
  | JObj _ => false
  | JArr children => forallb renderable children
  | _ => true
  end.

(** The same for a child expression that may be [undefined], which shows
    nothing. *)
Definition renderable_child (child : option json) : bool :=
  match child with
  | Some c => renderable c
  | None => true
  end.

(** [isAuthenticated ? ... <p>{user.name}</p> ... : <button>Sign In</button>],
    through to the mounting of the paragraph's child, where React throws on
    a plain object. *)
Definition account (v : view) : completion account_area :=
  if AuthProvider.isAuthenticated (session v) then
    name ← get_property (AuthProvider.user (session v)) "name";
    if renderable_child name then Normal (Profile name)
    else Throw (Error "Objects are not valid as a React child")
  else Normal SignIn.

End Topbar.

(* ===================================================================== *)
(** * The inventory search quoted in the implementation notes             *)
(* ===================================================================== *)

Module NotesSearch.

(** [n.toString()] for an integer. *)
Definition toString (n : Z) : string :=
  DecimalString.NilZero.string_of_int (Z.to_int n).

(** [x || ""] where [x] is a string or [undefined]. *)
Definition or_empty (x : option string) : string := or_default x EmptyString.

(** The predicate of [filteredBooks]; [search] is the lower-cased term. *)
Definition row_matches (search : string) (book : NotesRow.t) : bool :=
  let bookName := or_empty (Some (toLowerCase (NotesRow.name book))) in
  let authorName := or_empty (toLowerCase <$> NotesRow.author_name book) in
  let pageCount := or_empty (Some (toString (NotesRow.page_count book))) in
  let bookId := or_empty (Some (toString (NotesRow.id book))) in
  includes bookName search
  || includes authorName search
  || includes pageCount search
  || includes bookId search.

Definition filteredBooks (searchTerm : string) (storeBooks : list NotesRow.t)
  : list NotesRow.t :=
  if negb (truthy_string searchTerm) then storeBooks
  else List.filter (row_matches (toLowerCase searchTerm)) storeBooks.

End NotesSearch.

(* ===================================================================== *)
(** * Predicates and sample data for the session store                    *)
(* ===================================================================== *)

Module AuthSpec.

Import AuthProvider.

(** A credential record for [username]/[password]: an object whose
    [username] and [password] properties are exactly these strings. *)
Definition is_credential_record (username password : string) (v : json) : Prop :=
  exists fields,
    v = JObj fields /\
    lookup_field "username" fields = Some (JStr username) /\
    lookup_field "password" fields = Some (JStr password).

(** The same test as a boolean, for values that are not [null]. *)
Definition matchesb (username password : string) (v : json) : bool :=
  match v with
  | JObj fields =>
      strict_eq_string (lookup_field "username" fields) username
      && strict_eq_string (lookup_field "password" fields) password
  | _ => false
  end.

(** The first record for the credentials that the lookup of [login]
    reaches in a directory: no entry before it is [null], where the
    predicate of [find] throws, or such a record. *)
Definition reaches (username password : string) (users before : list json)
    (fields : list (string * json)) (after : list json) : Prop :=
  users = (before ++ JObj fields :: after)%list /\
  (forall v, In v before ->
             v <> JNull /\ ~ is_credential_record username password v) /\
  is_credential_record username password (JObj fields).

(** A directory with the two documented test credentials. *)
Definition users_json : list json :=
  [ JObj [ ("id", JNum (Finite 1 0)); ("username", JStr "admin");
           ("password", JStr "admin123"); ("name", JStr "Admin User");
           ("email", JStr "admin@library.com") ];
    JObj [ ("id", JNum (Finite 2 0)); ("username", JStr "user");
           ("password", JStr "user123"); ("name", JStr "Regular User");
           ("email", JStr "user@library.com") ] ].

(** The configuration [VITE_API_MODE=local]. *)
Definition local_env : Api.ImportMetaEnv :=
  {| Api.VITE_API_MODE := Some "local";
     Api.VITE_MOCK_API_URL := None;
     Api.VITE_API_URL := None |}.

(** A host that serves the directory as the static file of local mode. *)
Definition static_files : Api.network :=
  fun url =>
    if String.eqb url "/data/users.json" then
      Normal {| Api.ok := true; Api.statusText := "OK";
                Api.json_body := Some (JArr users_json) |}
    else Throw (TypeError "Failed to fetch").

(** A host whose directory starts with a [null] entry. *)
Definition null_first : Api.network :=
  fun url =>
    if String.eqb url "/data/users.json" then
      Normal {| Api.ok := true; Api.statusText := "OK";
                Api.json_body := Some (JArr (JNull :: users_json)) |}
    else Throw (TypeError "Failed to fetch").

(** A stored text that is not JSON, under the key of each provider. *)
Definition corrupt_text : string := "{oops".

Definition corrupt_session : state :=
  initial {[ "user" := corrupt_text ]}.

Definition corrupt_session_alt : state :=
  initial {[ AuthProviderAlt.storage_key := corrupt_text ]}.

End AuthSpec.

(* ===================================================================== *)
(** * Predicates and sample data for the inventory handlers               *)
(* ===================================================================== *)

Module InventorySpec.

Import Inventory.

(** The (store, book) pair of a row. *)
Definition pair_of (item : Item.t) : int_or_nan * int_or_nan :=
  (Item.store_id item, Item.book_id item).

(** At most one entry for each (store, book) pair. *)
Definition unique_pairs (inv : list Item.t) : Prop :=
  List.NoDup (map pair_of inv).

(** The rows [handleEditPrice] and [handleDeleteBook] act on. *)
Definition entries_of (st : state) (bookId : Z) (inv : list Item.t) : list Item.t :=
  List.filter (is_entry st bookId) inv.

(** Store 5 with no row yet; book 42 is selected in the add dialog at the
    price 19.99. *)
Definition empty_store : state :=
  {| storeId := "5"; isAuthenticated := true;
     inventory := []; books := [ {| Book.id := 42; Book.name := "Dune";
                                    Book.author_id := 1; Book.page_count := 412 |} ];
     authorMap := {[ 1 := {| Author.id := 1; Author.name := "Frank Herbert" |} ]};
     showAddModal := true; showEditModal := false; showDeleteModal := false;
     editingBook := None; editPrice := EmptyString; deletingBook := None;
     selectedBookId := "42"; newPrice := "19.99";
     bookSearchTerm := EmptyString |}.

(** The first add of (5, 42) and a second add of the same pair. *)
Definition added_once : state := handleAddBook empty_store.

Definition added_twice : state :=
  handleAddBook (setNewPrice "5.00" (setSelectedBookId "42" added_once)).

(** The component rendered with another value of [useAuth().isAuthenticated]. *)
Definition with_session (flag : bool) (st : state) : state :=
  {| storeId := storeId st; isAuthenticated := flag;
     inventory := inventory st; books := books st; authorMap := authorMap st;
     showAddModal := showAddModal st; showEditModal := showEditModal st;
     showDeleteModal := showDeleteModal st;
     editingBook := editingBook st; editPrice := editPrice st;
     deletingBook := deletingBook st;
     selectedBookId := selectedBookId st; newPrice := newPrice st;
     bookSearchTerm := bookSearchTerm st |}.

(** The add dialog filled in while no identity is present. *)
Definition anonymous_add : state := with_session false empty_store.

(** Three rows of store 5; the row of book 11 is about to be deleted. *)
Definition three_rows : state :=
  {| storeId := "5"; isAuthenticated := true;
     inventory :=
       [ {| Item.id := 1; Item.store_id := Int 5; Item.book_id := Int 10;
            Item.price := Finite 1000 (-2) |};
         {| Item.id := 2; Item.store_id := Int 5; Item.book_id := Int 11;
            Item.price := Finite 1200 (-2) |};
         {| Item.id := 3; Item.store_id := Int 5; Item.book_id := Int 12;
            Item.price := Finite 1500 (-2) |} ];
     books := []; authorMap := ∅;
     showAddModal := false; showEditModal := false; showDeleteModal := true;
     editingBook := None; editPrice := EmptyString;
     deletingBook := Some {| StoreBook.id := 11; StoreBook.name := "Emma";
                             StoreBook.page_count := 320; StoreBook.author_id := 2;
                             StoreBook.price := Finite 1200 (-2) |};
     selectedBookId := EmptyString; newPrice := EmptyString;
     bookSearchTerm := EmptyString |}.

(** The row of book 11 deleted, then book 11 added again. *)
Definition deleted_then_added : state :=
  handleAddBook (setNewPrice "9.50" (setSelectedBookId "11" (confirmDelete three_rows))).

(** The price text [-5] typed in the add dialog and in the edit dialog. *)
Definition negative_add : state := setNewPrice "-5" empty_store.

Definition negative_edit : state :=
  setEditPrice "-5"
    (openEditModal {| StoreBook.id := 42; StoreBook.name := "Dune";
                      StoreBook.page_count := 412; StoreBook.author_id := 1;
                      StoreBook.price := Finite 1999 (-2) |}
                   "19.99" added_once).

(** The test applied to a candidate when a search term is typed. *)
Definition name_matches (st : state) (book : Book.t) : bool :=
  includes (toLowerCase (Book.name book)) (toLowerCase (bookSearchTerm st)).

(** The candidate list in the words of the specification: a filter over
    the book name and the author name, capped at seven. *)
Definition listAvailableBooks_spec (st : state) : list Book.t :=
  firstn 7
    (List.filter
       (fun book =>
          name_matches st book
          || includes (toLowerCase (author_cell st (Book.author_id book)))
                      (toLowerCase (bookSearchTerm st)))
       (availableBooks st)).

(** Searching the candidates of the empty store by the author's name. *)
Definition author_search : state := setBookSearchTerm "herbert" empty_store.

(** The same catalog and search in the notes' page. *)
Definition notes_author_search : InventoryNotes.state :=
  {| InventoryNotes.storeId := "5";
     InventoryNotes.storeBooks := [];
     InventoryNotes.books :=
       [ {| NotesBook.book_id := 42; NotesBook.name := "Dune";
            NotesBook.author_name := Some "Frank Herbert";
            NotesBook.page_count := 412 |} ];
     InventoryNotes.showAddModal := true;
     InventoryNotes.showEditModal := false;
     InventoryNotes.showDeleteModal := false;
     InventoryNotes.editingBook := None;
     InventoryNotes.deletingBook := None;
     InventoryNotes.selectedBookId := EmptyString;
     InventoryNotes.newPrice := EmptyString;
     InventoryNotes.bookSearchTerm := "herbert" |}.

End InventorySpec.
(* ===================================================================== *)
(** * Predicates and sample data for the further properties               *)
(* ===================================================================== *)

Module MoreSpec.

(** A request that fails for [fetchData]: rejected, answered with a status
    that is not a success, or answered with a body that is not JSON. *)
Definition is_failure (outcome : completion Api.Response) : Prop :=
  match outcome with
  | Throw _ => True
  | Normal r => Api.ok r = false \/ Api.json_body r = None
  end.

(** A host that is unreachable, and one that serves an empty collection. *)
Definition unreachable : Api.network :=
  fun url => Throw (TypeError "Failed to fetch").

Definition empty_collection : Api.network :=
  fun url => Normal {| Api.ok := true; Api.statusText := "OK";
                       Api.json_body := Some (JArr []) |}.


(** A text of white space only. *)
Fixpoint blank (s : string) : bool :=
  match s with
  | EmptyString => true
  | String c s' => is_whitespace c && blank s'
  end.

End MoreSpec.

Module MoreSamples.

(** A catalog of two books and their authors in the books table; nothing
    is being edited. *)
Definition dune : Book.t :=
  {| Book.id := 42; Book.name := "Dune"; Book.author_id := 1; Book.page_count := 412 |}.

Definition emma : Book.t :=
  {| Book.id := 11; Book.name := "Emma"; Book.author_id := 2; Book.page_count := 320 |}.

Definition table : BooksTable.props :=
  {| BooksTable.books := [dune; emma];
     BooksTable.authors :=
       [ {| AuthorRecord.id := 1; AuthorRecord.first_name := "Frank";
            AuthorRecord.last_name := "Herbert" |} ];
     BooksTable.editingRowId := None;
     BooksTable.editName := EmptyString;
     BooksTable.isAuthenticated := Some true |}.

Definition dune_row : EnrichedBook.t :=
  {| EnrichedBook.book := dune; EnrichedBook.author_name := "Frank Herbert" |}.

(** Two rows of the notes' inventory. *)
Definition notes_rows : list NotesRow.t :=
  [ {| NotesRow.id := 1; NotesRow.store_id := Int 5; NotesRow.book_id := 42;
       NotesRow.price := Finite 1999 (-2); NotesRow.name := "Dune";
       NotesRow.author_name := Some "Frank Herbert"; NotesRow.page_count := 412 |};
    {| NotesRow.id := 2; NotesRow.store_id := Int 5; NotesRow.book_id := 11;
       NotesRow.price := Finite 1200 (-2); NotesRow.name := "Emma";
       NotesRow.author_name := None; NotesRow.page_count := 320 |} ].

End MoreSamples.

Module MoreInventory.

Import Inventory InventorySpec.

(** A collection numbered 1, 2, ..., n in this order. *)
Definition numbered (inv : list Item.t) : Prop :=
  map Item.id inv = map Z.of_nat (seq 1 (length inv)).

(** The route [/store/abc]: a store id that is not a number. *)
Definition unnamed_store : state :=
  {| storeId := "abc"; isAuthenticated := true;
     inventory := inventory added_once; books := books empty_store;
     authorMap := authorMap empty_store;
     showAddModal := false; showEditModal := false; showDeleteModal := false;
     editingBook := None; editPrice := EmptyString; deletingBook := None;
     selectedBookId := EmptyString; newPrice := EmptyString;
     bookSearchTerm := EmptyString |}.

(** The notes' page with the add dialog filled in for book 42. *)
Definition notes_add : InventoryNotes.state :=
  {| InventoryNotes.storeId := "5";
     InventoryNotes.storeBooks := [];
     InventoryNotes.books :=
       [ {| NotesBook.book_id := 42; NotesBook.name := "Dune";
            NotesBook.author_name := Some "Frank Herbert";
            NotesBook.page_count := 412 |} ];
     InventoryNotes.showAddModal := true;
     InventoryNotes.showEditModal := false;
     InventoryNotes.showDeleteModal := false;
     InventoryNotes.editingBook := None;
     InventoryNotes.deletingBook := None;
     InventoryNotes.selectedBookId := "42";
     InventoryNotes.newPrice := "19.99";
     InventoryNotes.bookSearchTerm := EmptyString |}.

(** The delete dialog of the notes' page opened on a row. *)
Definition notes_deleting (row : NotesRow.t) (st : InventoryNotes.state)
  : InventoryNotes.state :=
  {| InventoryNotes.storeId := InventoryNotes.storeId st;
     InventoryNotes.storeBooks := InventoryNotes.storeBooks st;
     InventoryNotes.books := InventoryNotes.books st;
     InventoryNotes.showAddModal := InventoryNotes.showAddModal st;
     InventoryNotes.showEditModal := InventoryNotes.showEditModal st;
     InventoryNotes.showDeleteModal := true;
     InventoryNotes.editingBook := InventoryNotes.editingBook st;
     InventoryNotes.deletingBook := Some row;
     InventoryNotes.selectedBookId := InventoryNotes.selectedBookId st;
     InventoryNotes.newPrice := InventoryNotes.newPrice st;
     InventoryNotes.bookSearchTerm := InventoryNotes.bookSearchTerm st |}.

End MoreInventory.

(* ===================================================================== *)
(** * Properties of the JavaScript fragment                               *)
(* ===================================================================== *)

Module JSFacts.

(** [startsWith] is the prefix test. *)
Lemma startsWith_spec s t :
  startsWith s t = true <-> exists post, s = t +:+ post.
Proof.
  revert s. induction t as [ | b t IH]; intros s.
  - split; [intros _; exists s; reflexivity | intros _; destruct s; reflexivity].
  - destruct s as [ | a s]; simpl.
    + split; [discriminate | intros [post Hpost]; discriminate Hpost].
    + rewrite andb_true_iff, IH. split.
      * intros [Hab [post ->]]. apply Ascii.eqb_eq in Hab as ->.
        exists post. reflexivity.
      * intros [post Hpost]. injection Hpost as -> ->.
        split; [apply Ascii.eqb_refl | exists post; reflexivity].
Qed.

(** [includes] is the substring test. *)
Lemma includes_spec s t :
  includes s t = true <-> exists pre post, s = pre +:+ t +:+ post.
Proof.
  induction s as [ | a s IH].
  - cbn [includes]. rewrite orb_false_r, startsWith_spec. split.
    + intros [post Hpost]. exists EmptyString, post. exact Hpost.
    + intros (pre & post & Hs). destruct pre; [| discriminate Hs].
      exists post. exact Hs.
  - cbn [includes]. rewrite orb_true_iff, startsWith_spec, IH. split.
    + intros [[post Hpost] | (pre & post & Hs)].
      * exists EmptyString, post. exact Hpost.
      * exists (String a pre), post. simpl. rewrite Hs. reflexivity.
    + intros (pre & post & Hs). destruct pre as [ | c pre].
      * left. exists post. exact Hs.
      * right. simpl in Hs. injection Hs as _ Hs. exists pre, post. exact Hs.
Qed.

(** Every string contains the empty string. *)
Lemma includes_empty s : includes s EmptyString = true.
Proof. apply includes_spec. exists EmptyString, s. reflexivity. Qed.

(** Lower-casing twice changes nothing more. *)
Lemma lower_char_idempotent c : lower_char (lower_char c) = lower_char c.
Proof.
  destruct c as [[] [] [] [] [] [] [] []]; reflexivity.
Qed.

Lemma toLowerCase_idempotent s : toLowerCase (toLowerCase s) = toLowerCase s.
Proof.
  induction s as [ | c s IH]; simpl; [reflexivity |].
  rewrite lower_char_idempotent, IH. reflexivity.
Qed.

(** A text made of white space only trims to the empty string. *)
Lemma trimStart_blank s :
  forallb is_whitespace (list_ascii_of_string s) = true ->
  trimStart s = EmptyString.
Proof.
  induction s as [ | c s IH]; simpl; [reflexivity |].
  destruct (is_whitespace c); simpl; [exact IH | discriminate].
Qed.

Lemma trim_blank s :
  forallb is_whitespace (list_ascii_of_string s) = true ->
  truthy_string (trim s) = false.
Proof. intros Hblank. unfold trim. rewrite (trimStart_blank s Hblank). reflexivity. Qed.

(** The one-argument [parseInt] reads a [0x] prefix as hexadecimal, the
    call with radix 10 does not; elsewhere the two agree. *)
Lemma parseInt_radix_10_agree s :
  strip_hex_prefix (snd (read_sign (trimStart s))) = None ->
  parseInt s None = parseInt s (Some 10).
Proof.
  unfold parseInt. destruct (read_sign (trimStart s)) as [neg s1]. simpl.
  intros ->. reflexivity.
Qed.

Lemma parseInt_hex_prefix :
  parseInt "0x10" None = Int 16 /\ parseInt "0x10" (Some 10) = Int 0.
Proof. split; reflexivity. Qed.

End JSFacts.

(* ===================================================================== *)
(** * Properties of the data gateway                                      *)
(* ===================================================================== *)

Module ApiFacts.

Import Api.

Lemma or_default_unset d : or_default None d = d.
Proof. reflexivity. Qed.

Lemma or_default_empty d : or_default (Some EmptyString) d = d.
Proof. reflexivity. Qed.

Lemma or_default_set v d : v <> EmptyString -> or_default (Some v) d = v.
Proof. destruct v; [congruence | reflexivity]. Qed.

(** [fetchData] never completes abruptly. *)
Lemma fetchData_total env fetch endpoint :
  exists l, fetchData env fetch endpoint = Normal l.
Proof.
  unfold fetchData, mbind, completion_bind, bind, try_catch.
  destruct (fetch (request_url env endpoint)) as [r | e]; [| eauto].
  destruct (ok r); simpl; [| eauto].
  unfold response_json. destruct (json_body r); simpl; eauto.
Qed.

(** C9. For every resource name [fetchData] produces a sequence and throws
    nothing: the elements of an array body, a one-element sequence holding
    a body that is not an array, and the empty sequence when the request
    is rejected (network error), the status is not a success, or the body
    is not JSON. *)
Theorem fetchData_returns_sequence env (fetch : network) endpoint :
  exists l : list json,
    fetchData env fetch endpoint = Normal l /\
    match fetch (request_url env endpoint) with
    | Throw _ => l = []
    | Normal r =>
        if ok r then
          match json_body r with
          | Some (JArr items) => l = items
          | Some single => l = [single]
          | None => l = []
          end
        else l = []
    end.
Proof.
  unfold fetchData, mbind, completion_bind, bind, try_catch.
  destruct (fetch (request_url env endpoint)) as [r | e]; [| eauto].
  destruct (ok r); simpl; [| eauto].
  unfold response_json.
  destruct (json_body r) as [[ | b | n | s | items | fields] | ]; simpl; eauto.
Qed.

(** Not every configured value other than ["api"] and ["mock"] selects the
    static file: the empty string is replaced by the default ["api"]
    through [||] and targets the backend. *)
Lemma empty_mode_targets_backend :
  ~ (forall env v endpoint,
        VITE_API_MODE env = Some v -> v <> "api" -> v <> "mock" ->
        request_url env endpoint = "/data/" +:+ endpoint +:+ ".json").
Proof.
  intros Hclaim.
  pose (env := {| VITE_API_MODE := Some EmptyString;
                  VITE_MOCK_API_URL := None;
                  VITE_API_URL := None |}).
  assert (Hstatic : request_url env "books" = "/data/books.json").
  { apply (Hclaim env EmptyString "books"); [reflexivity | | ]; discriminate. }
  assert (Hbackend : request_url env "books"
                     = "https://your-backend-api.com/api/books") by reflexivity.
  rewrite Hbackend in Hstatic. discriminate Hstatic.
Qed.

(** C10 (amended). The mode is the configured value when it is a
    non-empty string and ["api"] when the variable is unset or empty; mode
    ["api"] targets the backend base URL, mode ["mock"] the mock-server
    base URL, and every other mode, ["local"] included, the static file
    [/data/<endpoint>.json]. *)
Theorem mode_dispatch env endpoint :
  (VITE_API_MODE env = None \/ VITE_API_MODE env = Some EmptyString ->
     API_MODE env = "api") /\
  (forall v, VITE_API_MODE env = Some v -> v <> EmptyString -> API_MODE env = v) /\
  (API_MODE env = "api" ->
     request_url env endpoint = BACKEND_API_URL env +:+ "/" +:+ endpoint) /\
  (API_MODE env = "mock" ->
     request_url env endpoint = MOCK_API_URL env +:+ "/" +:+ endpoint) /\
  (API_MODE env <> "api" -> API_MODE env <> "mock" ->
     request_url env endpoint = "/data/" +:+ endpoint +:+ ".json").
Proof.
  unfold request_url, API_MODE.
  split; [| split; [| split; [| split]]].
  - intros [-> | ->]; reflexivity.
  - intros v -> Hv. now apply or_default_set.
  - intros Hm. rewrite Hm. reflexivity.
  - intros Hm. rewrite Hm. reflexivity.
  - intros Hapi Hmock.
    destruct (String.eqb_spec (or_default (VITE_API_MODE env) "api") "api");
      [contradiction |].
    destruct (String.eqb_spec (or_default (VITE_API_MODE env) "api") "mock");
      [contradiction | reflexivity].
Qed.

(** The dispatch at the configuration [VITE_API_MODE=local]. *)
Lemma mode_dispatch_witness :
  request_url {| VITE_API_MODE := Some "local"; VITE_MOCK_API_URL := None;
                 VITE_API_URL := None |} "books" = "/data/books.json".
Proof.
  apply (mode_dispatch {| VITE_API_MODE := Some "local";
                          VITE_MOCK_API_URL := None;
                          VITE_API_URL := None |} "books").
  - vm_compute. discriminate.
  - vm_compute. discriminate.
Defined.

End ApiFacts.

(* ===================================================================== *)
(** * Properties of the session store                                     *)
(* ===================================================================== *)

Module AuthFacts.

Import AuthSpec.

Import AuthProvider.

Lemma strict_eq_string_true x s :
  strict_eq_string x s = true <-> x = Some (JStr s).
Proof.
  unfold strict_eq_string.
  destruct x as [[ | | | t | | ] | ]; try (split; [discriminate | congruence]).
  destruct (String.eqb_spec t s); split; congruence.
Qed.

Lemma matchesb_spec username password v :
  matchesb username password v = true <-> is_credential_record username password v.
Proof.
  unfold matchesb, is_credential_record. split.
  - destruct v; try discriminate.
    rewrite andb_true_iff, !strict_eq_string_true. intros [Hu Hp]. eauto.
  - intros (fields & -> & Hu & Hp).
    rewrite andb_true_iff, !strict_eq_string_true. auto.
Qed.

Lemma credentials_match_not_null username password v :
  v <> JNull ->
  credentials_match username password v = Normal (matchesb username password v).
Proof.
  intros Hv. unfold credentials_match, matchesb.
  destruct v; try congruence; simpl; try reflexivity.
  destruct (strict_eq_string (lookup_field "username" fields) username); reflexivity.
Qed.

Lemma find_not_null username password users :
  Forall (fun v => v <> JNull) users ->
  find (credentials_match username password) users
  = Normal (List.find (matchesb username password) users).
Proof.
  induction 1 as [ | v users Hv _ IH]; [reflexivity |].
  simpl. rewrite credentials_match_not_null by assumption. simpl.
  destruct (matchesb username password v); [reflexivity | exact IH].
Qed.

(** [List.find] returns the first element that satisfies the test. *)
Lemma find_first {A} (p : A -> bool) l x :
  List.find p l = Some x ->
  exists before after,
    l = (before ++ x :: after)%list /\ p x = true /\
    (forall y, In y before -> p y = false).
Proof.
  induction l as [ | a l IH]; [discriminate |].
  simpl. destruct (p a) eqn:Hpa.
  - intros [= ->]. exists [], l. repeat split; [assumption | intros y []].
  - intros Hfind. destruct (IH Hfind) as (before & after & -> & Hx & Hbefore).
    exists (a :: before), after. repeat split; [assumption |].
    intros y [<- | Hy]; auto.
Qed.

Lemma lookup_without_password fields k :
  lookup_field k
    (List.filter (fun kv => negb (String.eqb (fst kv) "password")) fields)
  = if String.eqb k "password" then None else lookup_field k fields.
Proof.
  induction fields as [ | [k' v] fields IH]; simpl.
  - destruct (String.eqb k "password"); reflexivity.
  - destruct (String.eqb_spec k' "password") as [Hk' | Hk']; simpl.
    + rewrite IH. destruct (String.eqb_spec k "password") as [Hk | Hk].
      * reflexivity.
      * destruct (String.eqb_spec k' k); [congruence | reflexivity].
    + rewrite IH. destruct (String.eqb_spec k' k) as [Hkk | Hkk].
      * destruct (String.eqb_spec k "password"); [congruence | reflexivity].
      * reflexivity.
Qed.

(** One step of the lookup over an entry that is not [null]. *)
Lemma find_step username password v rest :
  v <> JNull ->
  find (credentials_match username password) (v :: rest) =
  if matchesb username password v then Normal (Some v)
  else find (credentials_match username password) rest.
Proof.
  intros Hv. cbn [find].
  rewrite credentials_match_not_null by exact Hv. reflexivity.
Qed.

(** The lookup finds the record it reaches. *)
Lemma find_reached username password users before fields after :
  reaches username password users before fields after ->
  find (credentials_match username password) users = Normal (Some (JObj fields)).
Proof.
  intros (-> & Hbefore & Hrec). apply matchesb_spec in Hrec.
  induction before as [ | v before IH].
  - cbn [app]. rewrite find_step by discriminate. rewrite Hrec. reflexivity.
  - destruct (Hbefore v (or_introl eq_refl)) as [Hnull Hnot].
    cbn [app]. rewrite find_step by exact Hnull.
    destruct (matchesb username password v) eqn:Hv.
    + exfalso. apply Hnot. apply matchesb_spec. exact Hv.
    + apply IH. intros w Hw. apply Hbefore. right. exact Hw.
Qed.

Lemma json_is_null (v : json) : v = JNull \/ v <> JNull.
Proof. destruct v; [left; reflexivity | right; discriminate ..]. Qed.

(** Whether the lookup reaches a record can be told from the directory. *)
Lemma reaches_or_not username password users :
  (exists before fields after, reaches username password users before fields after) \/
  ~ (exists before fields after, reaches username password users before fields after).
Proof.
  induction users as [ | v users IH].
  - right. intros (before & fields & after & Heq & _).
    destruct before; discriminate Heq.
  - destruct (matchesb username password v) eqn:Hv.
    + left. pose proof Hv as Hrec. apply matchesb_spec in Hrec.
      destruct Hrec as (fields & -> & Hu & Hp).
      exists [], fields, users. split; [reflexivity |].
      split; [intros w [] | exists fields; auto].
    + destruct (json_is_null v) as [-> | Hnull].
      { right. intros (before & fields & after & Heq & Hbefore & _).
        destruct before as [ | w before]; [discriminate Heq |].
        injection Heq as <- _.
        destruct (Hbefore JNull (or_introl eq_refl)) as [Hn _].
        apply Hn. reflexivity. }
      destruct IH as [(before & fields & after & -> & Hbefore & Hrec) | Hno].
      * left. exists (v :: before), fields, after.
        split; [reflexivity |]. split; [| exact Hrec].
        intros w [<- | Hw]; [| apply Hbefore; exact Hw].
        split; [exact Hnull |].
        intros Hr. apply matchesb_spec in Hr. rewrite Hv in Hr. discriminate Hr.
      * right. intros (before & fields & after & Heq & Hbefore & Hrec).
        destruct before as [ | w before].
        -- injection Heq as -> _. apply matchesb_spec in Hrec.
           rewrite Hv in Hrec. discriminate Hrec.
        -- injection Heq as _ ->. apply Hno.
           exists before, fields, after. split; [reflexivity |].
           split; [| exact Hrec]. intros x Hx. apply Hbefore. right. exact Hx.
Qed.

(** Where it reaches none, the lookup finds nothing or throws. *)
Lemma find_not_reached username password users :
  ~ (exists before fields after, reaches username password users before fields after) ->
  find (credentials_match username password) users = Normal None \/
  exists e, find (credentials_match username password) users = Throw e.
Proof.
  induction users as [ | v users IH]; intros Hno; [left; reflexivity |].
  destruct (json_is_null v) as [-> | Hnull].
  { right. eexists. reflexivity. }
  rewrite find_step by exact Hnull.
  destruct (matchesb username password v) eqn:Hv.
  - exfalso. apply Hno. pose proof Hv as Hrec. apply matchesb_spec in Hrec.
    destruct Hrec as (fields & -> & Hu & Hp).
    exists [], fields, users. split; [reflexivity |].
    split; [intros w [] | exists fields; auto].
  - apply IH. intros (before & fields & after & -> & Hbefore & Hrec).
    apply Hno. exists (v :: before), fields, after.
    split; [reflexivity |]. split; [| exact Hrec].
    intros w [<- | Hw]; [| apply Hbefore; exact Hw].
    split; [exact Hnull |].
    intros Hr. apply matchesb_spec in Hr. rewrite Hv in Hr. discriminate Hr.
Qed.

Section WithHost.
Context `{JSON_builtins} `{Web_storage}.

(** [login] when the lookup reaches a record: the identity is installed
    first, and the answer depends on the storage accepting the write. *)
Lemma login_reached env fetch username password s users before fields after :
  Api.fetchData env fetch "users" = Normal users ->
  reaches username password users before fields after ->
  login env fetch username password s =
  if setItem_accepts (localStorage s) "user"
       (JSON_stringify (without_password (JObj fields)))
  then
    (Normal true,
     {| user := without_password (JObj fields);
        localStorage :=
          <["user" := JSON_stringify (without_password (JObj fields))]>
            (localStorage s) |})
  else
    (Normal false,
     {| user := without_password (JObj fields); localStorage := localStorage s |}).
Proof.
  intros Hfetch Hreach.
  unfold login, eff_try, mbind, eff_bind, lift, setUser, setItem.
  rewrite Hfetch, (find_reached _ _ _ _ _ _ Hreach). simpl.
  destruct (setItem_accepts (localStorage s) "user" _); reflexivity.
Qed.

(** [login] when the lookup reaches no record. *)
Lemma login_not_reached env fetch username password s users :
  Api.fetchData env fetch "users" = Normal users ->
  ~ (exists before fields after, reaches username password users before fields after) ->
  login env fetch username password s = (Normal false, s).
Proof.
  intros Hfetch Hno.
  unfold login, eff_try, mbind, eff_bind, lift.
  rewrite Hfetch.
  destruct (find_not_reached _ _ _ Hno) as [-> | [e ->]]; reflexivity.
Qed.

(** C1 (amended). [login] answers [true] exactly when the directory holds a
    record with the given user name and password (strict, case-sensitive
    equality) that the lookup reaches, no entry before the first such
    record being [null], and the storage accepts the write of the
    identity. It has then installed, and persisted under the key [user],
    that first record with its [password] property removed and every other
    property kept. Where the lookup reaches no such record the answer is
    [false] and the session is untouched. *)
Theorem login_iff_credential_record env fetch username password s users :
  Api.fetchData env fetch "users" = Normal users ->
  exists (b : bool) (s' : state),
    login env fetch username password s = (Normal b, s') /\
    (b = true <->
       exists before fields after,
         reaches username password users before fields after /\
         setItem_accepts (localStorage s) "user"
           (JSON_stringify (without_password (JObj fields))) = true) /\
    (b = true ->
       exists before fields after identity,
         reaches username password users before fields after /\
         without_password (JObj fields) = JObj identity /\
         user s' = JObj identity /\
         localStorage s' =
           <["user" := JSON_stringify (JObj identity)]> (localStorage s) /\
         lookup_field "password" identity = None /\
         (forall k, k <> "password" ->
                    lookup_field k identity = lookup_field k fields)) /\
    (~ (exists before fields after,
           reaches username password users before fields after) ->
     b = false /\ s' = s).
Proof.
  intros Hfetch.
  destruct (reaches_or_not username password users)
    as [(before & fields & after & Hreach) | Hno].
  - rewrite (login_reached _ _ _ _ _ _ _ _ _ Hfetch Hreach).
    destruct (setItem_accepts (localStorage s) "user"
                (JSON_stringify (without_password (JObj fields)))) eqn:Hacc.
    + eexists true, _. split; [reflexivity |].
      split; [| split].
      * split; [| reflexivity]. intros _. exists before, fields, after. auto.
      * intros _.
        exists before, fields, after,
          (List.filter (fun kv => negb (String.eqb (fst kv) "password")) fields).
        split; [exact Hreach |].
        split; [reflexivity |]. split; [reflexivity |]. split; [reflexivity |].
        split.
        -- rewrite lookup_without_password. reflexivity.
        -- intros k Hk. rewrite lookup_without_password.
           destruct (String.eqb_spec k "password"); [contradiction | reflexivity].
      * intros Hno. exfalso. apply Hno. exists before, fields, after. exact Hreach.
    + eexists false, _. split; [reflexivity |].
      split; [| split].
      * split; [discriminate |].
        intros (before' & fields' & after' & Hreach' & Hacc').
        pose proof (find_reached _ _ _ _ _ _ Hreach) as Hfound.
        rewrite (find_reached _ _ _ _ _ _ Hreach') in Hfound.
        injection Hfound as ->. congruence.
      * discriminate.
      * intros Hno. exfalso. apply Hno. exists before, fields, after. exact Hreach.
  - rewrite (login_not_reached _ _ _ _ _ _ Hfetch Hno).
    exists false, s. split; [reflexivity |].
    split; [| split].
    + split; [discriminate |].
      intros (before & fields & after & Hreach & _).
      exfalso. apply Hno. exists before, fields, after. exact Hreach.
    + discriminate.
    + intros _. split; reflexivity.
Qed.

(** A [null] entry ahead of the record makes the predicate throw; the
    [catch] clause then answers [false]. *)
Lemma login_null_entry env fetch username password s users :
  Api.fetchData env fetch "users" = Normal (JNull :: users) ->
  login env fetch username password s = (Normal false, s).
Proof.
  intros Hfetch. unfold login, eff_try, mbind, eff_bind, lift.
  rewrite Hfetch. reflexivity.
Qed.

(** [restore] installs whatever the stored text decodes to. *)
Lemma restore_installs s text v :
  localStorage s !! "user" = Some text ->
  truthy_string text = true ->
  JSON_parse text = Some v ->
  restore s = (Normal tt, {| user := v; localStorage := localStorage s |}).
Proof.
  intros Hget Htext Hparse.
  unfold restore, mbind, eff_bind, getItem, lift, parse.
  rewrite Hget, Htext, Hparse. reflexivity.
Qed.

(** Nothing stored, or the empty text: the session is left as it is. *)
Lemma restore_absent s :
  localStorage s !! "user" = None \/ localStorage s !! "user" = Some EmptyString ->
  restore s = (Normal tt, s).
Proof.
  intros Hget. unfold restore, mbind, eff_bind, getItem.
  destruct Hget as [-> | ->]; reflexivity.
Qed.

(** A stored text that does not parse: the [SyntaxError] leaves the
    effect, and the storage still holds the text. *)
Lemma restore_parse_error_propagates s text :
  localStorage s !! "user" = Some text ->
  truthy_string text = true ->
  JSON_parse text = None ->
  restore s = (Throw (SyntaxError "JSON.parse"), s).
Proof.
  intros Hget Htext Hparse.
  unfold restore, mbind, eff_bind, getItem, lift, parse.
  rewrite Hget, Htext, Hparse. reflexivity.
Qed.

(** The sibling provider installs the decoded value as well ... *)
Lemma alt_restore_installs s text v :
  localStorage s !! AuthProviderAlt.storage_key = Some text ->
  truthy_string text = true ->
  JSON_parse text = Some v ->
  AuthProviderAlt.restore s
  = (Normal tt, {| user := v; localStorage := localStorage s |}).
Proof.
  intros Hget Htext Hparse.
  unfold AuthProviderAlt.restore, eff_try, mbind, eff_bind, getItem, lift, parse.
  rewrite Hget, Htext, Hparse. reflexivity.
Qed.

(** ... and on a parse error keeps the session as it is and deletes the
    stored text. *)
Lemma alt_restore_fails_open s text :
  localStorage s !! AuthProviderAlt.storage_key = Some text ->
  truthy_string text = true ->
  JSON_parse text = None ->
  AuthProviderAlt.restore s
  = (Normal tt,
     {| user := user s;
        localStorage := delete AuthProviderAlt.storage_key (localStorage s) |}).
Proof.
  intros Hget Htext Hparse.
  unfold AuthProviderAlt.restore, eff_try, mbind, eff_bind, getItem, lift, parse.
  rewrite Hget, Htext, Hparse. reflexivity.
Qed.

(** What the sibling [login] computes when the static file holds an array
    without [null] entries; the status of the response is not looked at.
    The identity is installed before the write, which the storage may
    refuse. *)
Lemma alt_login_unfold fetch username password s r users :
  fetch "/data/users.json" = Normal r ->
  Api.json_body r = Some (JArr users) ->
  Forall (fun v => v <> JNull) users ->
  AuthProviderAlt.login fetch username password s =
  match List.find (matchesb username password) users with
  | Some found =>
      if setItem_accepts (localStorage s) AuthProviderAlt.storage_key
           (JSON_stringify (AuthProviderAlt.authenticatedUser found))
      then
        (Normal true,
         {| user := AuthProviderAlt.authenticatedUser found;
            localStorage :=
              <[AuthProviderAlt.storage_key :=
                  JSON_stringify (AuthProviderAlt.authenticatedUser found)]>
                (localStorage s) |})
      else
        (Normal false,
         {| user := AuthProviderAlt.authenticatedUser found;
            localStorage := localStorage s |})
  | None => (Normal false, s)
  end.
Proof.
  intros Hfetch Hbody Hnn.
  unfold AuthProviderAlt.login, eff_try, mbind, eff_bind, lift, Api.response_json.
  rewrite Hfetch, Hbody. simpl. rewrite (find_not_null _ _ _ Hnn).
  destruct (List.find (matchesb username password) users) as [found | ] eqn:Hfind;
    [| reflexivity].
  apply find_some in Hfind as [_ Hm].
  destruct found; try discriminate.
  unfold setUser, setItem. simpl.
  destruct (setItem_accepts (localStorage s) AuthProviderAlt.storage_key _);
    reflexivity.
Qed.

(** A successful [login] leaves an authenticated session. *)
Lemma login_authenticates env fetch username password s s' :
  login env fetch username password s = (Normal true, s') ->
  isAuthenticated s' = true.
Proof.
  unfold login, eff_try, mbind, eff_bind, lift.
  destruct (Api.fetchData env fetch "users") as [users | e]; [| discriminate].
  destruct (find (credentials_match username password) users)
    as [[found | ] | e]; try discriminate.
  destruct (truthy found); [| discriminate].
  unfold setUser, setItem. simpl.
  destruct (setItem_accepts (localStorage s) "user" _); [| discriminate].
  intros [= <-]. unfold isAuthenticated. simpl.
  unfold without_password. destruct found; reflexivity.
Qed.

(** X7. [logout] empties the session and the stored value, after which
    [restore] finds nothing to install: the session stays unauthenticated
    across a reload. *)
Lemma logout_then_restore s :
  logout s = (Normal tt, {| user := JNull;
                            localStorage := delete "user" (localStorage s) |}) /\
  restore (snd (logout s)) = (Normal tt, snd (logout s)) /\
  isAuthenticated (snd (logout s)) = false.
Proof.
  split; [reflexivity |]. split; [| reflexivity].
  apply restore_absent. left. simpl. apply lookup_delete_eq.
Qed.

End WithHost.

(** ** The identity built by the sibling provider *)

(** On a record with the five documented properties the projection of the
    sibling provider is the record without its password. *)
Lemma alt_identity_on_documented_shape i u p n e :
  AuthProviderAlt.authenticatedUser
    (JObj [("id", i); ("username", u); ("password", p); ("name", n); ("email", e)])
  = without_password
      (JObj [("id", i); ("username", u); ("password", p); ("name", n); ("email", e)]).
Proof. reflexivity. Qed.

(** Any further property is dropped by the projection and kept by the
    rest pattern. *)
Lemma alt_identity_drops_other_properties :
  AuthProviderAlt.authenticatedUser
    (JObj [("id", JNum (Finite 1 0)); ("username", JStr "admin");
           ("password", JStr "admin123"); ("role", JStr "admin")])
  = JObj [("id", JNum (Finite 1 0)); ("username", JStr "admin")] /\
  without_password
    (JObj [("id", JNum (Finite 1 0)); ("username", JStr "admin");
           ("password", JStr "admin123"); ("role", JStr "admin")])
  = JObj [("id", JNum (Finite 1 0)); ("username", JStr "admin");
          ("role", JStr "admin")].
Proof. split; reflexivity. Qed.

(** ** The providers on sample data *)

Lemma users_json_fetched :
  Api.fetchData local_env static_files "users" = Normal users_json.
Proof. reflexivity. Qed.

Lemma users_json_not_null : Forall (fun v => v <> JNull) users_json.
Proof. repeat constructor; discriminate. Qed.

(** [login("admin", "admin123")] on the test directory, over a storage
    that accepts every write. *)
Lemma login_iff_credential_record_witness :
  exists b s',
    login local_env static_files "admin" "admin123" (initial ∅) = (Normal b, s') /\
    (b = true <->
       exists before fields after,
         reaches "admin" "admin123" users_json before fields after /\
         setItem_accepts (localStorage (initial ∅)) "user"
           (JSON_stringify (without_password (JObj fields))) = true).
Proof.
  destruct (login_iff_credential_record local_env static_files
              "admin" "admin123" (initial ∅) users_json users_json_fetched)
    as (b & s' & Hrun & Hiff & _).
  exists b, s'. split; [exact Hrun | exact Hiff].
Defined.

(** C1, as stated, fails: a directory that holds the record for
    [admin]/[admin123] behind a [null] entry. The predicate of [find]
    throws on the [null] entry, the [catch] of [login] answers [false], and
    the session stays empty. *)
Lemma null_entry_hides_record :
  Api.fetchData local_env null_first "users" = Normal (JNull :: users_json) /\
  (exists v, In v (JNull :: users_json) /\
             is_credential_record "admin" "admin123" v) /\
  login local_env null_first "admin" "admin123" (initial ∅)
  = (Normal false, initial ∅).
Proof.
  split; [reflexivity |]. split; [| reflexivity].
  eexists. split; [right; left; reflexivity |].
  eexists. split; [reflexivity |]. split; reflexivity.
Qed.

(** C6 (the provider of [src/contexts]). With a stored text that is not
    JSON, [restore] ends in the [SyntaxError] of [JSON.parse]: no fallback
    to the empty session is taken and the stored text is still there
    afterwards, whereas the sibling provider, whose effect catches the
    error, completes normally and removes the key. *)
Theorem restore_corrupt_value_not_cleared :
  JSON_parse corrupt_text = None /\
  restore corrupt_session = (Throw (SyntaxError "JSON.parse"), corrupt_session) /\
  localStorage corrupt_session !! "user" = Some corrupt_text /\
  AuthProviderAlt.restore corrupt_session_alt = (Normal tt, initial ∅).
Proof.
  assert (Hparse : JSON_parse corrupt_text = None) by reflexivity.
  assert (Hget : localStorage corrupt_session !! "user" = Some corrupt_text)
    by apply lookup_singleton_eq.
  split; [exact Hparse |].
  split; [| split; [exact Hget |]].
  - apply restore_parse_error_propagates with (text := corrupt_text);
      [exact Hget | reflexivity | exact Hparse].
  - rewrite (alt_restore_fails_open corrupt_session_alt corrupt_text);
      [| apply lookup_singleton_eq | reflexivity | exact Hparse].
    unfold corrupt_session_alt, initial. simpl.
    rewrite delete_singleton_eq. reflexivity.
Qed.

End AuthFacts.

(* ===================================================================== *)
(** * Properties of the inventory handlers                                *)
(* ===================================================================== *)

Module InventoryFacts.

Import InventorySpec.

Import Inventory.

(** ** Shape of the handlers' results *)

Lemma handleAddBook_inventory st :
  inventory (handleAddBook st) =
  if truthy_string (selectedBookId st) && truthy_string (newPrice st)
  then (inventory st ++ [newItem st])%list
  else inventory st.
Proof.
  unfold handleAddBook.
  destruct (truthy_string (selectedBookId st) && truthy_string (newPrice st));
    reflexivity.
Qed.

Lemma handleAddBook_storeId st : storeId (handleAddBook st) = storeId st.
Proof.
  unfold handleAddBook.
  destruct (truthy_string (selectedBookId st) && truthy_string (newPrice st));
    reflexivity.
Qed.

Lemma handleAddBook_books st : books (handleAddBook st) = books st.
Proof.
  unfold handleAddBook.
  destruct (truthy_string (selectedBookId st) && truthy_string (newPrice st));
    reflexivity.
Qed.

Lemma handleSaveEdit_inventory st :
  inventory (handleSaveEdit st) =
  match editingBook st with
  | Some book =>
      if truthy_string (editPrice st) then
        map (fun item =>
               if is_entry st (StoreBook.id book) item
               then Item.with_price item (parseFloat (editPrice st))
               else item)
            (inventory st)
      else inventory st
  | None => inventory st
  end.
Proof.
  unfold handleSaveEdit.
  destruct (editingBook st) as [book | ]; [| reflexivity].
  destruct (truthy_string (editPrice st)); reflexivity.
Qed.

Lemma confirmDelete_inventory st :
  inventory (confirmDelete st) =
  match deletingBook st with
  | Some book =>
      List.filter (fun item => negb (is_entry st (StoreBook.id book) item))
                  (inventory st)
  | None => inventory st
  end.
Proof.
  unfold confirmDelete. destruct (deletingBook st); reflexivity.
Qed.

Lemma parseInt_truthy s r z : parseInt s r = Int z -> truthy_string s = true.
Proof. destruct s; [| reflexivity]. unfold parseInt. simpl.
       destruct r as [r | ]; simpl.
       - destruct (negb (r =? 0) && ((r <? 2) || (36 <? r))); [discriminate |].
         destruct ((r =? 0) || (r =? 16)); simpl; [| discriminate].
         destruct (r =? 0); discriminate.
       - discriminate.
Qed.

(** ** Uniqueness of (store, book) pairs *)

Lemma NoDup_map_filter {A B} (f : A -> B) (p : A -> bool) l :
  List.NoDup (map f l) -> List.NoDup (map f (List.filter p l)).
Proof.
  induction l as [ | a l IH]; simpl; [auto |].
  intros Hnd. inversion Hnd as [ | ? ? Hnotin' Hrest']; subst.
  destruct (p a); simpl; [| auto].
  constructor; [| auto].
  intros Hin. apply Hnotin'.
  apply in_map_iff in Hin as (x & Hx & Hxin).
  apply filter_In in Hxin as [Hxin _].
  apply in_map_iff. eauto.
Qed.

Lemma pair_of_with_price item p : pair_of (Item.with_price item p) = pair_of item.
Proof. reflexivity. Qed.

Lemma handleEditPrice_pairs bookId p st :
  map pair_of (inventory (handleEditPrice bookId p st)) = map pair_of (inventory st).
Proof.
  unfold handleEditPrice. simpl. rewrite map_map.
  apply map_ext. intros item.
  destruct (is_entry st bookId item); reflexivity.
Qed.

Lemma same_value_zero_Int y z : same_value_zero y (Int z) = true <-> y = Int z.
Proof.
  destruct y as [ | x]; simpl; [split; discriminate |].
  rewrite Z.eqb_eq. split; congruence.
Qed.

Lemma strict_eq_int_Int y z : strict_eq_int y (Int z) = true <-> y = Int z.
Proof.
  destruct y as [ | x]; simpl; [split; discriminate |].
  rewrite Z.eqb_eq. split; congruence.
Qed.

(** A book is offered exactly when it is in the catalog and no inventory
    row of the store carries its id. *)
Lemma availableBooks_spec st b :
  In b (availableBooks st) <->
  In b (books st) /\
  forall item, In item (inventory st) ->
               strict_eq_int (Item.store_id item)
                             (parseInt (storeId st) (Some 10)) = true ->
               Item.book_id item <> Int (Book.id b).
Proof.
  unfold availableBooks, booksInStore, array_includes.
  rewrite filter_In, negb_true_iff.
  split; intros [Hb Hfree]; (split; [exact Hb |]).
  - intros item Hitem Hstore Hbook.
    assert (Hex : existsb (fun y => same_value_zero y (Int (Book.id b)))
                    (map Item.book_id
                       (List.filter
                          (fun item0 => strict_eq_int (Item.store_id item0)
                                          (parseInt (storeId st) (Some 10)))
                          (inventory st))) = true).
    { apply existsb_exists. exists (Item.book_id item). split.
      - apply in_map. apply filter_In. auto.
      - apply same_value_zero_Int. exact Hbook. }
    congruence.
  - apply not_true_is_false. intros Hex.
    apply existsb_exists in Hex as (y & Hy & Hsame).
    apply in_map_iff in Hy as (item & <- & Hitem).
    apply filter_In in Hitem as [Hitem Hstore].
    apply same_value_zero_Int in Hsame.
    exact (Hfree item Hitem Hstore Hsame).
Qed.

Lemma is_entry_iff st sid bookId item :
  parseInt (storeId st) (Some 10) = Int sid ->
  is_entry st bookId item = true <-> pair_of item = (Int sid, Int bookId).
Proof.
  intros Hsid. unfold is_entry, pair_of. rewrite Hsid, andb_true_iff.
  rewrite !strict_eq_int_Int. split.
  - intros [-> ->]. reflexivity.
  - intros [= -> ->]. auto.
Qed.

Lemma filter_none {A} (p : A -> bool) l :
  (forall x, In x l -> p x = false) -> List.filter p l = [].
Proof.
  induction l as [ | a l IH]; [reflexivity |].
  intros Hall. simpl. rewrite (Hall a (or_introl eq_refl)).
  apply IH. intros x Hx. apply Hall. right. exact Hx.
Qed.

(** An offered book has no row in the store. *)
Lemma available_has_no_entry st b :
  In b (availableBooks st) -> entries_of st (Book.id b) (inventory st) = [].
Proof.
  intros Hb. apply availableBooks_spec in Hb as [_ Hfree].
  apply filter_none. intros item Hitem.
  apply not_true_is_false. unfold is_entry. rewrite andb_true_iff.
  intros [Hstore Hbook]. apply strict_eq_int_Int in Hbook.
  exact (Hfree item Hitem Hstore Hbook).
Qed.

(** ** The add dialog picks from the offered books *)

(** The handler has no duplicate check: both calls append a row. *)
Lemma second_add_is_not_rejected :
  inventory added_once =
    [ {| Item.id := 1; Item.store_id := Int 5; Item.book_id := Int 42;
         Item.price := Finite 1999 (-2) |} ] /\
  inventory added_twice =
    [ {| Item.id := 1; Item.store_id := Int 5; Item.book_id := Int 42;
         Item.price := Finite 1999 (-2) |};
      {| Item.id := 2; Item.store_id := Int 5; Item.book_id := Int 42;
         Item.price := Finite 500 (-2) |} ].
Proof. split; reflexivity. Qed.

(** C4 (amended). [handleAddBook] makes no duplicate check of its own; the
    candidates of the add dialog are the catalog books without a row for
    the store, and adding such a candidate appends one row, after which
    the store has exactly that row for the book and the book is no longer
    a candidate. *)
Theorem add_offered_book_once st b sid :
  parseInt (storeId st) None = Int sid ->
  parseInt (storeId st) (Some 10) = Int sid ->
  In b (availableBooks st) ->
  parseInt (selectedBookId st) None = Int (Book.id b) ->
  truthy_string (newPrice st) = true ->
  entries_of st (Book.id b) (inventory st) = [] /\
  inventory (handleAddBook st) = (inventory st ++ [newItem st])%list /\
  entries_of st (Book.id b) (inventory (handleAddBook st)) = [newItem st] /\
  ~ In b (availableBooks (handleAddBook st)).
Proof.
  intros Hsid Hsid10 Hb Hsel Hprice.
  pose proof (available_has_no_entry st b Hb) as Hnone.
  assert (Hinv : inventory (handleAddBook st) = (inventory st ++ [newItem st])%list).
  { rewrite handleAddBook_inventory, (parseInt_truthy _ _ _ Hsel), Hprice.
    reflexivity. }
  assert (Hnew : is_entry st (Book.id b) (newItem st) = true).
  { apply (is_entry_iff st sid); [exact Hsid10 |].
    unfold pair_of, newItem. simpl. rewrite Hsid, Hsel. reflexivity. }
  split; [exact Hnone |]. split; [exact Hinv |]. split.
  - rewrite Hinv. unfold entries_of in *. rewrite List.filter_app, Hnone. simpl.
    rewrite Hnew. reflexivity.
  - intros Hstill. apply availableBooks_spec in Hstill as [_ Hfree].
    rewrite handleAddBook_storeId, Hinv in Hfree.
    apply (Hfree (newItem st)).
    + apply in_or_app. right. left. reflexivity.
    + unfold newItem. simpl. rewrite Hsid, Hsid10. simpl. apply Z.eqb_refl.
    + unfold newItem. simpl. exact Hsel.
Qed.

Lemma add_offered_book_once_witness :
  entries_of empty_store 42 (inventory added_once) = [newItem empty_store] /\
  ~ In {| Book.id := 42; Book.name := "Dune";
          Book.author_id := 1; Book.page_count := 412 |}
       (availableBooks added_once).
Proof.
  apply (add_offered_book_once empty_store
           {| Book.id := 42; Book.name := "Dune";
              Book.author_id := 1; Book.page_count := 412 |} 5).
  - reflexivity.
  - reflexivity.
  - left. reflexivity.
  - reflexivity.
  - reflexivity.
Defined.

(** The invariant is not kept by [handleAddBook] on its own. *)
Lemma add_can_duplicate_pair :
  ~ (forall st, unique_pairs (inventory st) ->
                unique_pairs (inventory (handleAddBook st))).
Proof.
  intros Hclaim.
  specialize (Hclaim (setNewPrice "5.00" (setSelectedBookId "42" added_once))).
  assert (Hbefore :
            unique_pairs
              (inventory (setNewPrice "5.00" (setSelectedBookId "42" added_once)))).
  { unfold unique_pairs. simpl. constructor; [intros [] | constructor]. }
  specialize (Hclaim Hbefore). unfold unique_pairs in Hclaim.
  change (List.NoDup [(Int 5, Int 42); (Int 5, Int 42)]) in Hclaim.
  inversion Hclaim as [ | ? ? Hnotin _]; subst.
  apply Hnotin. left. reflexivity.
Qed.

(** C5 (amended). Changing a price and removing a row keep the collection
    free of repeated (store, book) pairs; adding keeps it so when the
    selected book is one of the candidates offered for the store, the only
    books the add dialog lets the user select. *)
Theorem handlers_keep_pairs_unique st :
  unique_pairs (inventory st) ->
  (forall bookId p, unique_pairs (inventory (handleEditPrice bookId p st))) /\
  unique_pairs (inventory (handleSaveEdit st)) /\
  (forall bookId, unique_pairs (inventory (handleDeleteBook bookId st))) /\
  unique_pairs (inventory (confirmDelete st)) /\
  (forall b sid,
      parseInt (storeId st) None = Int sid ->
      parseInt (storeId st) (Some 10) = Int sid ->
      In b (availableBooks st) ->
      parseInt (selectedBookId st) None = Int (Book.id b) ->
      unique_pairs (inventory (handleAddBook st))).
Proof.
  intros Huniq.
  assert (Hedit : forall bookId p,
             unique_pairs (inventory (handleEditPrice bookId p st))).
  { intros bookId p. unfold unique_pairs.
    rewrite handleEditPrice_pairs. exact Huniq. }
  assert (Hdel : forall bookId,
             unique_pairs (inventory (handleDeleteBook bookId st))).
  { intros bookId. unfold unique_pairs, handleDeleteBook. simpl.
    apply NoDup_map_filter. exact Huniq. }
  split; [exact Hedit |]. split; [| split; [exact Hdel |]]; [| split].
  - unfold handleSaveEdit.
    destruct (editingBook st) as [book | ]; [| exact Huniq].
    destruct (truthy_string (editPrice st)); [| exact Huniq].
    exact (Hedit (StoreBook.id book) (parseFloat (editPrice st))).
  - unfold confirmDelete.
    destruct (deletingBook st) as [book | ]; [apply Hdel | exact Huniq].
  - intros b sid Hsid Hsid10 Hb Hsel.
    rewrite handleAddBook_inventory.
    destruct (truthy_string (selectedBookId st) && truthy_string (newPrice st));
      [| exact Huniq].
    unfold unique_pairs. rewrite List.map_app. simpl.
    apply List.NoDup_app; [exact Huniq | repeat constructor; intros [] |].
    intros key Hkey [<- | []].
    apply in_map_iff in Hkey as (item & Hpair & Hitem).
    apply availableBooks_spec in Hb as [_ Hfree].
    unfold pair_of, newItem in Hpair. simpl in Hpair.
    rewrite Hsid, Hsel in Hpair. injection Hpair as Hstore Hbook.
    apply (Hfree item Hitem); [| exact Hbook].
    rewrite Hstore, Hsid10. simpl. apply Z.eqb_refl.
Qed.

Lemma handlers_keep_pairs_unique_witness :
  unique_pairs (inventory added_once) /\
  unique_pairs (inventory (handleDeleteBook 42 added_once)).
Proof.
  assert (Hempty : unique_pairs (inventory empty_store)) by constructor.
  assert (Honce : unique_pairs (inventory added_once)).
  { destruct (handlers_keep_pairs_unique empty_store Hempty)
      as (_ & _ & _ & _ & Hadd).
    apply (Hadd {| Book.id := 42; Book.name := "Dune";
                   Book.author_id := 1; Book.page_count := 412 |} 5);
      [reflexivity | reflexivity | left; reflexivity | reflexivity]. }
  split; [exact Honce |].
  destruct (handlers_keep_pairs_unique added_once Honce)
    as (_ & _ & Hdel & _).
  apply Hdel.
Defined.

(** ** The session flag *)

(** Without an identity the handler still appends the row: there is no
    rejection in the handlers. *)
Lemma anonymous_add_is_applied :
  ~ (forall st, isAuthenticated st = false ->
                inventory (handleAddBook st) = inventory st /\
                inventory (handleSaveEdit st) = inventory st /\
                inventory (confirmDelete st) = inventory st).
Proof.
  intros Hclaim.
  destruct (Hclaim anonymous_add eq_refl) as [Hadd _].
  discriminate Hadd.
Qed.

(** C2 (amended). Without an identity the inventory table has its five
    data columns and no Actions column: no cell offers the edit or the
    delete button, so neither dialog can be opened from the table; with an
    identity the Actions column is appended, enabled. The handlers
    themselves do not read the session: they compute the same collection
    whatever the flag is. *)
Theorem mutations_gated_by_columns st :
  (isAuthenticated st = false ->
     columns st = baseColumns /\
     ~ In "actions" (map key (columns st)) /\
     forall c, In c (columns st) -> offers c = []) /\
  (isAuthenticated st = true ->
     columns st = (baseColumns ++ [actionsColumn st])%list /\
     offers (actionsColumn st) = [EditRow; DeleteRow] /\
     disabled (actionsColumn st) = false) /\
  (forall flag,
      inventory (handleAddBook (with_session flag st)) = inventory (handleAddBook st) /\
      inventory (handleSaveEdit (with_session flag st)) = inventory (handleSaveEdit st) /\
      inventory (confirmDelete (with_session flag st)) = inventory (confirmDelete st)).
Proof.
  split; [| split].
  - intros Hanon. unfold columns. rewrite Hanon.
    split; [reflexivity |]. split.
    + simpl. intros [H | [H | [H | [H | [H | []]]]]]; discriminate H.
    + intros c [<- | [<- | [<- | [<- | [<- | []]]]]]; reflexivity.
  - intros Hauth. unfold columns, actionsColumn. rewrite Hauth.
    repeat split.
  - intros flag.
    rewrite !handleAddBook_inventory, !handleSaveEdit_inventory,
      !confirmDelete_inventory.
    repeat split.
Qed.

Lemma mutations_gated_by_columns_witness :
  columns anonymous_add = baseColumns /\
  ~ In "actions" (map key (columns anonymous_add)) /\
  forall c, In c (columns anonymous_add) -> offers c = [].
Proof.
  apply (mutations_gated_by_columns anonymous_add). reflexivity.
Defined.

(** ** Identifiers of new rows *)

Lemma newItem_id st : Item.id (newItem st) = Z.of_nat (length (inventory st)) + 1.
Proof. reflexivity. Qed.

(** On an empty collection the new row gets identifier 1. *)
Lemma newItem_id_empty st : inventory st = [] -> Item.id (newItem st) = 1.
Proof. intros Hempty. rewrite newItem_id, Hempty. reflexivity. Qed.

(** The rule of the implementation notes exceeds every identifier in use
    and gives 1 on an empty collection. *)
Lemma notes_new_id_fresh ids x : In x ids -> x < InventoryNotes.new_id ids.
Proof.
  unfold InventoryNotes.new_id, InventoryNotes.Math_max0.
  induction ids as [ | a ids IH]; simpl; [intros [] |].
  intros [-> | Hx]; [lia |].
  specialize (IH Hx). lia.
Qed.

Lemma notes_new_id_empty : InventoryNotes.new_id [] = 1.
Proof. reflexivity. Qed.

(** The notes' handler numbers the new row above every row in use. *)
Lemma notes_add_numbers_above st st' :
  truthy_string (InventoryNotes.selectedBookId st) = true ->
  truthy_string (InventoryNotes.newPrice st) = true ->
  InventoryNotes.handleAddBook st = Normal st' ->
  exists row,
    InventoryNotes.storeBooks st' = (InventoryNotes.storeBooks st ++ [row])%list /\
    (forall r, In r (InventoryNotes.storeBooks st) -> NotesRow.id r < NotesRow.id row) /\
    (InventoryNotes.storeBooks st = [] -> NotesRow.id row = 1).
Proof.
  intros Hsel Hprice. unfold InventoryNotes.handleAddBook.
  rewrite Hsel, Hprice. simpl.
  destruct (List.find _ (InventoryNotes.books st)) as [book | ]; [| discriminate].
  intros [= <-]. exists (InventoryNotes.newItem st book).
  split; [reflexivity |]. split.
  - intros r Hr. simpl. apply notes_new_id_fresh. apply in_map. exact Hr.
  - intros Hempty. simpl. rewrite Hempty. reflexivity.
Qed.

(** The page's rule is fresh as long as no identifier exceeds the length
    of the collection, as in a collection numbered 1..n with no row
    deleted. *)
Lemma newItem_id_fresh_when_dense st :
  (forall item, In item (inventory st) ->
                Item.id item <= Z.of_nat (length (inventory st))) ->
  forall item, In item (inventory st) -> Item.id item < Item.id (newItem st).
Proof.
  intros Hdense item Hitem. rewrite newItem_id.
  specialize (Hdense item Hitem). lia.
Qed.

(** C3 (the page's handler). After the row with identifier 2 is deleted,
    the next added row is numbered [length + 1 = 3], the identifier of a
    row already present: the new identifier is not greater than every
    identifier in the collection, where the rule of the notes gives 4. *)
Theorem new_id_repeats_after_delete :
  map Item.id (inventory (confirmDelete three_rows)) = [1; 3] /\
  map Item.id (inventory deleted_then_added) = [1; 3; 3] /\
  InventoryNotes.new_id (map Item.id (inventory (confirmDelete three_rows))) = 4.
Proof. repeat split. Qed.

(** ** Prices *)

(** A negative price is stored by both dialogs. *)
Lemma negative_price_is_stored :
  ~ (forall st, finite_non_negative (parseFloat (newPrice st)) = false ->
                inventory (handleAddBook st) = inventory st) /\
  ~ (forall st, finite_non_negative (parseFloat (editPrice st)) = false ->
                inventory (handleSaveEdit st) = inventory st).
Proof.
  split; intros Hclaim.
  - specialize (Hclaim negative_add eq_refl). discriminate Hclaim.
  - specialize (Hclaim negative_edit eq_refl). discriminate Hclaim.
Qed.

(** C7 (amended). With an empty price text neither dialog changes
    anything; any other price text is converted by [parseFloat] and stored
    as it is, without a check of its sign or finiteness. *)
Theorem price_text_is_not_validated st :
  (newPrice st = EmptyString -> handleAddBook st = st) /\
  (editPrice st = EmptyString -> handleSaveEdit st = st) /\
  (truthy_string (selectedBookId st) = true ->
   truthy_string (newPrice st) = true ->
   inventory (handleAddBook st) = (inventory st ++ [newItem st])%list /\
   Item.price (newItem st) = parseFloat (newPrice st)) /\
  (forall book,
      editingBook st = Some book ->
      truthy_string (editPrice st) = true ->
      inventory (handleSaveEdit st) =
        map (fun item =>
               if is_entry st (StoreBook.id book) item
               then Item.with_price item (parseFloat (editPrice st))
               else item)
            (inventory st)).
Proof.
  split; [| split; [| split]].
  - intros Hempty. unfold handleAddBook. rewrite Hempty, andb_false_r. reflexivity.
  - intros Hempty. unfold handleSaveEdit. rewrite Hempty.
    destruct (editingBook st); reflexivity.
  - intros Hsel Hprice. rewrite handleAddBook_inventory, Hsel, Hprice.
    split; reflexivity.
  - intros book Hbook Hprice. rewrite handleSaveEdit_inventory, Hbook, Hprice.
    reflexivity.
Qed.

Lemma price_text_is_not_validated_witness :
  handleAddBook (setNewPrice EmptyString empty_store)
    = setNewPrice EmptyString empty_store /\
  Item.price (newItem negative_add) = Finite (-5) 0.
Proof.
  split.
  - apply (price_text_is_not_validated (setNewPrice EmptyString empty_store)).
    reflexivity.
  - apply (price_text_is_not_validated negative_add); reflexivity.
Defined.

(** ** Candidates of the add dialog *)

Lemma filter_sublist {A} (p : A -> bool) (l : list A) : sublist (List.filter p l) l.
Proof.
  induction l as [ | a l IH]; simpl; [constructor |].
  destruct (p a); [apply sublist_skip | apply sublist_cons]; exact IH.
Qed.

Lemma firstn_sublist {A} n (l : list A) : sublist (firstn n l) l.
Proof.
  revert n. induction l as [ | a l IH]; intros [ | n]; simpl;
    try constructor; auto.
  apply sublist_nil_l.
Qed.

Lemma author_cell_of_dune : author_cell author_search 1 = "Frank Herbert".
Proof.
  unfold author_cell, author_search, empty_store. simpl.
  rewrite lookup_singleton_eq. reflexivity.
Qed.

(** C8 (the page's filter). The only candidate is by Frank Herbert and has
    no row in the store; the term [herbert] occurs in the author's name, so
    a filter over book name and author name keeps the book, as the notes'
    filter does, but the page's filter looks at the book name alone and
    returns nothing. *)
Theorem author_name_is_not_searched :
  availableBooks author_search = books author_search /\
  map (fun book => author_cell author_search (Book.author_id book))
      (availableBooks author_search) = ["Frank Herbert"] /\
  includes (toLowerCase "Frank Herbert")
           (toLowerCase (bookSearchTerm author_search)) = true /\
  listAvailableBooks_spec author_search = books author_search /\
  InventoryNotes.filteredAvailableBooks notes_author_search
    = InventoryNotes.books notes_author_search /\
  filteredAvailableBooks author_search = [].
Proof.
  assert (Hspec : listAvailableBooks_spec author_search = books author_search).
  { unfold listAvailableBooks_spec. simpl. rewrite author_cell_of_dune. reflexivity. }
  split; [reflexivity |].
  split; [simpl; rewrite author_cell_of_dune; reflexivity |].
  split; [reflexivity |].
  split; [exact Hspec |].
  split; reflexivity.
Qed.

(** X30. What the page computes: the candidates are exactly the catalog books
    without an inventory row for the store, in catalog order; the dialog
    shows the first seven of them, or, when the search term is not blank,
    the first seven of those whose name contains the term, compared in
    lower case. *)
Lemma candidates_listing st :
  (forall b,
      In b (availableBooks st) <->
      In b (books st) /\
      forall item, In item (inventory st) ->
                   strict_eq_int (Item.store_id item)
                                 (parseInt (storeId st) (Some 10)) = true ->
                   Item.book_id item <> Int (Book.id b)) /\
  sublist (availableBooks st) (books st) /\
  (truthy_string (trim (bookSearchTerm st)) = false ->
     filteredAvailableBooks st = firstn 7 (availableBooks st)) /\
  (truthy_string (trim (bookSearchTerm st)) = true ->
     filteredAvailableBooks st =
       firstn 7 (List.filter (name_matches st) (availableBooks st))) /\
  sublist (filteredAvailableBooks st) (availableBooks st) /\
  (length (filteredAvailableBooks st) <= 7)%nat.
Proof.
  split; [intros b; apply availableBooks_spec |].
  split; [apply filter_sublist |].
  unfold filteredAvailableBooks, slice0.
  split; [intros ->; reflexivity |].
  split; [intros ->; reflexivity |].
  split.
  - destruct (truthy_string (trim (bookSearchTerm st))).
    + etransitivity; [apply firstn_sublist | apply filter_sublist].
    + apply firstn_sublist.
  - apply firstn_le_length.
Qed.

Lemma candidates_listing_example :
  filteredAvailableBooks author_search =
    firstn 7 (List.filter (name_matches author_search)
                          (availableBooks author_search)) /\
  filteredAvailableBooks empty_store = firstn 7 (availableBooks empty_store).
Proof.
  split.
  - destruct (candidates_listing author_search) as (_ & _ & _ & Hterm & _).
    apply Hterm. reflexivity.
  - destruct (candidates_listing empty_store) as (_ & _ & Hblank & _).
    apply Hblank. reflexivity.
Defined.

End InventoryFacts.

(* ===================================================================== *)
(** * Further properties of the data gateway                              *)
(* ===================================================================== *)

Module ApiMore.

Import Api MoreSpec.

Lemma or_default_truthy a d :
  truthy_string d = true -> truthy_string (or_default a d) = true.
Proof.
  intros Hd. unfold or_default. destruct a as [s | ]; [| exact Hd].
  destruct (truthy_string s) eqn:Hs; [exact Hs | exact Hd].
Qed.

Lemma append_cancel_l s a b : s +:+ a = s +:+ b -> a = b.
Proof.
  induction s as [ | c s IH]; simpl; [auto |].
  intros [= H]. auto.
Qed.

Lemma length_append s t :
  String.length (s +:+ t) = (String.length s + String.length t)%nat.
Proof. induction s as [ | c s IH]; simpl; [reflexivity | now rewrite IH]. Qed.

Lemma append_cancel_r a b t : a +:+ t = b +:+ t -> a = b.
Proof.
  revert b. induction a as [ | c a IH]; intros [ | d b] Heq.
  - reflexivity.
  - apply (f_equal String.length) in Heq.
    rewrite !length_append in Heq. simpl in Heq. lia.
  - apply (f_equal String.length) in Heq.
    rewrite !length_append in Heq. simpl in Heq. lia.
  - simpl in Heq. injection Heq as -> Heq. f_equal. apply IH. exact Heq.
Qed.

(** X1. The mode is never the empty string; the two mode predicates are
    never both true; and they decide the request: the backend base URL
    when [isUsingBackendAPI], the mock-server base URL when
    [isUsingMockServer], the static file when neither. *)
Theorem mode_predicates_decide_request env endpoint :
  getApiMode env <> EmptyString /\
  (isUsingBackendAPI env && isUsingMockServer env = false) /\
  (isUsingBackendAPI env = true ->
     request_url env endpoint = BACKEND_API_URL env +:+ "/" +:+ endpoint) /\
  (isUsingMockServer env = true ->
     request_url env endpoint = MOCK_API_URL env +:+ "/" +:+ endpoint) /\
  (isUsingBackendAPI env = false -> isUsingMockServer env = false ->
     request_url env endpoint = "/data/" +:+ endpoint +:+ ".json").
Proof.
  unfold getApiMode, isUsingBackendAPI, isUsingMockServer, request_url.
  split.
  - intros Hempty.
    pose proof (or_default_truthy (VITE_API_MODE env) "api" eq_refl) as Ht.
    unfold API_MODE in Hempty. rewrite Hempty in Ht. discriminate Ht.
  - split.
    + destruct (String.eqb_spec (API_MODE env) "api") as [Heq | ]; [| reflexivity].
      rewrite Heq. reflexivity.
    + split; [intros ->; reflexivity |].
      split.
      * intros Hmock.
        destruct (String.eqb_spec (API_MODE env) "api") as [Heq | ].
        -- rewrite Heq in Hmock. discriminate Hmock.
        -- rewrite Hmock. reflexivity.
      * intros -> ->. reflexivity.
Qed.

(** A failed request makes [fetchData] answer the empty sequence. *)
Lemma failure_cases env endpoint (failing : network) :
  is_failure (failing (request_url env endpoint)) ->
  fetchData env failing endpoint = Normal [].
Proof.
  intros Hfail.
  unfold fetchData, mbind, completion_bind, bind, try_catch.
  destruct (failing (request_url env endpoint)) as [r | e]; [| reflexivity].
  simpl in Hfail. destruct (ok r); simpl; [| reflexivity].
  destruct Hfail as [Hok | Hbody]; [discriminate Hok |].
  unfold response_json. rewrite Hbody. reflexivity.
Qed.

(** X2. A failed request and an empty collection give the caller the same
    result: [fetchData] answers the empty sequence for both. *)
Theorem failure_looks_like_empty env endpoint (failing serving : network) :
  is_failure (failing (request_url env endpoint)) ->
  serving (request_url env endpoint)
    = Normal {| ok := true; statusText := "OK"; json_body := Some (JArr []) |} ->
  fetchData env failing endpoint = Normal [] /\
  fetchData env failing endpoint = fetchData env serving endpoint.
Proof.
  intros Hfail Hserve.
  pose proof (failure_cases env endpoint failing Hfail) as Hempty.
  split; [exact Hempty |].
  rewrite Hempty. unfold fetchData, mbind, completion_bind, bind, try_catch.
  rewrite Hserve. reflexivity.
Qed.

Lemma failure_looks_like_empty_witness :
  fetchData AuthSpec.local_env unreachable "books" = Normal [] /\
  fetchData AuthSpec.local_env unreachable "books"
    = fetchData AuthSpec.local_env empty_collection "books".
Proof.
  apply (failure_looks_like_empty AuthSpec.local_env "books"
           unreachable empty_collection).
  - exact I.
  - reflexivity.
Defined.

(** X3. Under one configuration two different resource names are never
    requested from the same URL. *)
Theorem distinct_resources_distinct_urls env e1 e2 :
  e1 <> e2 -> request_url env e1 <> request_url env e2.
Proof.
  intros Hne Heq. apply Hne. unfold request_url in Heq.
  destruct (String.eqb (API_MODE env) "api").
  - apply append_cancel_l in Heq. injection Heq as Heq. exact Heq.
  - destruct (String.eqb (API_MODE env) "mock").
    + apply append_cancel_l in Heq. injection Heq as Heq. exact Heq.
    + apply (append_cancel_l "/data/") in Heq.
      apply append_cancel_r in Heq. exact Heq.
Qed.

Lemma distinct_resources_distinct_urls_witness :
  request_url AuthSpec.local_env "books" <> request_url AuthSpec.local_env "authors".
Proof.
  apply (distinct_resources_distinct_urls AuthSpec.local_env "books" "authors").
  discriminate.
Defined.

End ApiMore.

(* ===================================================================== *)
(** * Further properties of the session store                             *)
(* ===================================================================== *)

Module AuthMore.

Import AuthProvider AuthSpec MoreSpec.


Lemma without_password_truthy found : truthy (without_password found) = true.
Proof. unfold without_password. destruct found; reflexivity. Qed.


Section WithHost.
Context `{JSON_builtins} `{Web_storage}.

(** The three ways [login] can end: nothing found or an error before the
    identity is installed; the identity installed and stored; the identity
    installed and the write refused by the storage, whose error the
    [catch] turns into [false]. *)
Lemma login_outcome env fetch username password s :
  login env fetch username password s = (Normal false, s) \/
  (exists found,
     setItem_accepts (localStorage s) "user"
       (JSON_stringify (without_password found)) = true /\
     login env fetch username password s =
     (Normal true,
      {| user := without_password found;
         localStorage :=
           <["user" := JSON_stringify (without_password found)]> (localStorage s) |})) \/
  (exists found,
     setItem_accepts (localStorage s) "user"
       (JSON_stringify (without_password found)) = false /\
     login env fetch username password s =
     (Normal false,
      {| user := without_password found; localStorage := localStorage s |})).
Proof.
  unfold login, eff_try, mbind, eff_bind, lift.
  destruct (Api.fetchData env fetch "users") as [users | e]; [| left; reflexivity].
  destruct (find (credentials_match username password) users)
    as [[found | ] | e]; try (left; reflexivity).
  destruct (truthy found); [| left; reflexivity].
  right. unfold setUser, setItem. simpl.
  destruct (setItem_accepts (localStorage s) "user"
              (JSON_stringify (without_password found))) eqn:Hacc.
  - left. exists found. split; [exact Hacc | reflexivity].
  - right. exists found. split; [exact Hacc | reflexivity].
Qed.


(** X5. When the directory cannot be fetched (request rejected, status not
    a success, or body not JSON), [login] answers [false] for every user
    name and password and leaves the session as it was. *)
Theorem login_without_directory env fetch username password s :
  is_failure (fetch (Api.request_url env "users")) ->
  login env fetch username password s = (Normal false, s).
Proof.
  intros Hfail.
  pose proof (ApiMore.failure_cases env "users" fetch Hfail) as Hempty.
  unfold login, eff_try, mbind, eff_bind, lift. rewrite Hempty. reflexivity.
Qed.

(** X6. A page reload after a successful [login] restores the same
    identity, provided the host's [JSON.parse] reads back what its
    [JSON.stringify] wrote for that identity and that text is not empty. *)
Theorem login_then_restore env fetch username password s s1 :
  login env fetch username password s = (Normal true, s1) ->
  truthy_string (JSON_stringify (user s1)) = true ->
  JSON_parse (JSON_stringify (user s1)) = Some (user s1) ->
  restore (initial (localStorage s1)) = (Normal tt, s1) /\
  isAuthenticated s1 = true.
Proof.
  intros Hlogin Htext Hparse.
  destruct (login_outcome env fetch username password s)
    as [Hrun | [(found & _ & Hrun) | (found & _ & Hrun)]];
    rewrite Hrun in Hlogin; [discriminate Hlogin | | discriminate Hlogin].
  injection Hlogin as <-. simpl in *.
  split; [| apply without_password_truthy].
  unfold restore, mbind, eff_bind, getItem, lift, parse, setUser, initial. simpl.
  rewrite lookup_insert_eq, Htext, Hparse. reflexivity.
Qed.

(** X8. [logout] never fails: it empties the identity and removes the
    stored value, leaves every other storage key alone, and a second
    [logout] changes nothing more. *)
Theorem logout_clears_only_the_session s :
  exists s',
    logout s = (Normal tt, s') /\
    user s' = JNull /\
    isAuthenticated s' = false /\
    localStorage s' !! "user" = None /\
    (forall k, k <> "user" -> localStorage s' !! k = localStorage s !! k) /\
    logout s' = (Normal tt, s').
Proof.
  eexists. split; [reflexivity |]. simpl.
  split; [reflexivity |]. split; [reflexivity |].
  split; [apply lookup_delete_eq |].
  split.
  - intros k Hk. apply lookup_delete_ne. congruence.
  - unfold logout, mbind, eff_bind, setUser, removeItem. simpl.
    rewrite delete_delete_eq. reflexivity.
Qed.



End WithHost.

(** On the test directory over a storage that refuses every write, the
    answer is [false] and the session is authenticated all the same. *)
Lemma refused_write_installs_identity :
  exists s',
    @login ReferenceJSON.builtins ReferenceStorage.exhausted
      local_env static_files "admin" "admin123" (initial ∅) = (Normal false, s') /\
    isAuthenticated s' = true /\
    localStorage s' = ∅.
Proof. eexists. split; [reflexivity |]. split; reflexivity. Qed.

Lemma login_without_directory_witness :
  login local_env unreachable "admin" "admin123" (initial ∅)
  = (Normal false, initial ∅).
Proof.
  apply (login_without_directory local_env unreachable "admin" "admin123" (initial ∅)).
  exact I.
Defined.

Lemma login_then_restore_witness :
  exists s1,
    login local_env static_files "admin" "admin123" (initial ∅) = (Normal true, s1) /\
    restore (initial (localStorage s1)) = (Normal tt, s1).
Proof.
  eexists. split; [reflexivity |].
  apply (login_then_restore local_env static_files "admin" "admin123" (initial ∅));
    reflexivity.
Defined.

End AuthMore.

(* ===================================================================== *)
(** * Properties of the top bar                                           *)
(* ===================================================================== *)

Module TopbarFacts.

Import Topbar.

(** X11. The page of a store, [/store/<id>], has no entry in the title
    table, whose key for it is the route pattern itself: neither a title
    nor a subtitle is shown there. *)
Theorem store_page_has_no_title id :
  id <> ":storeId" ->
  shown_title ("/store/" +:+ id) = None /\
  shown_subtitle ("/store/" +:+ id) = None.
Proof.
  intros Hid.
  assert (Hentry : entry_of title ("/store/" +:+ id) = None).
  { unfold title. cbn [entry_of].
    change ("/store/" +:+ id)
      with (String "/" (String "s" (String "t" (String "o" (String "r"
             (String "e" (String "/" id))))))).
    replace (String.eqb "/store/:storeId"
               (String "/" (String "s" (String "t" (String "o" (String "r"
                  (String "e" (String "/" id))))))))
      with (String.eqb ":storeId" id) by reflexivity.
    destruct (String.eqb_spec ":storeId" id) as [Heq | _]; [congruence |].
    reflexivity. }
  unfold shown_title, shown_subtitle. rewrite Hentry. split; reflexivity.
Qed.

Lemma store_page_has_no_title_witness :
  shown_title "/store/5" = None /\ shown_subtitle "/store/5" = None.
Proof.
  apply (store_page_has_no_title "5"). discriminate.
Defined.

(** X12. The account area shows the sign-in button exactly when the
    session is not authenticated. When it is authenticated, reading
    [user.name] does not throw, [user] not being [null], and the area shows
    that name unless it is a plain object or an array holding one, on which
    the rendering throws. After [handleLogout] the area shows the sign-in
    button, the stored value is gone and the location is the home page. *)
Theorem account_area_rendering v :
  (account v = Normal SignIn <->
   AuthProvider.isAuthenticated (session v) = false) /\
  (AuthProvider.isAuthenticated (session v) = true ->
   exists name,
     get_property (AuthProvider.user (session v)) "name" = Normal name /\
     (renderable_child name = true -> account v = Normal (Profile name)) /\
     (renderable_child name = false -> exists e, account v = Throw e)) /\
  account (handleLogout v) = Normal SignIn /\
  AuthProvider.localStorage (session (handleLogout v)) !! "user" = None /\
  pathname (handleLogout v) = "/".
Proof.
  split; [| split].
  - unfold account.
    destruct (AuthProvider.isAuthenticated (session v)) eqn:Hauth.
    + split; [| discriminate].
      destruct (get_property (AuthProvider.user (session v)) "name")
        as [name | e]; simpl; [| discriminate].
      destruct (renderable_child name); discriminate.
    + split; reflexivity.
  - intros Hauth. unfold account. rewrite Hauth.
    unfold AuthProvider.isAuthenticated in Hauth.
    destruct (AuthProvider.user (session v)) as [ | b | n | t | items | fields];
      try discriminate Hauth; simpl.
    1-4: exists None; split; [reflexivity |];
         split; [reflexivity | discriminate].
    exists (lookup_field "name" fields). split; [reflexivity |].
    destruct (renderable_child (lookup_field "name" fields)).
    + split; [reflexivity | discriminate].
    + split; [discriminate | intros _; eexists; reflexivity].
  - split; [reflexivity |]. split; [| reflexivity].
    simpl. apply lookup_delete_eq.
Qed.

Section WithHost.
Context `{JSON_builtins}.

(** A stored text that parses to an object whose [name] is itself an
    object: [restore] installs it, the session counts as authenticated, and
    the account area cannot be rendered. *)
Lemma restored_object_name_is_not_rendered s text (inner : list (string * json)) rest path :
  AuthProvider.localStorage s !! "user" = Some text ->
  truthy_string text = true ->
  JSON_parse text = Some (JObj (("name", JObj inner) :: rest)) ->
  exists s',
    AuthProvider.restore s = (Normal tt, s') /\
    AuthProvider.isAuthenticated s' = true /\
    account {| session := s'; pathname := path |}
    = Throw (Error "Objects are not valid as a React child").
Proof.
  intros Hget Htext Hparse. eexists.
  split; [apply (AuthFacts.restore_installs s text _ Hget Htext Hparse) |].
  split; reflexivity.
Qed.

End WithHost.

End TopbarFacts.

(* ===================================================================== *)
(** * Properties of the books table                                       *)
(* ===================================================================== *)

Module BooksTableFacts.

Import BooksTable MoreSamples.

Lemma find_app_first {A} (p : A -> bool) l1 l2 :
  List.find p (l1 ++ l2)%list =
  match List.find p l1 with
  | Some x => Some x
  | None => List.find p l2
  end.
Proof.
  induction l1 as [ | a l1 IH]; simpl; [reflexivity |].
  destruct (p a); [reflexivity | exact IH].
Qed.

(** The last author with a given id is the one the map keeps. *)
Lemma authorMap_from (authors : list AuthorRecord.t) (m : gmap Z string) k :
  fold_left (fun map author => <[AuthorRecord.id author := full_name author]> map)
            authors m !! k
  = match List.find (fun a => AuthorRecord.id a =? k) (rev authors) with
    | Some a => Some (full_name a)
    | None => m !! k
    end.
Proof.
  revert m. induction authors as [ | a authors IH]; intros m; simpl;
    [reflexivity |].
  rewrite IH, find_app_first.
  destruct (List.find (fun a0 => AuthorRecord.id a0 =? k) (rev authors));
    [reflexivity |].
  simpl. destruct (Z.eqb_spec (AuthorRecord.id a) k) as [Heq | Hne].
  - rewrite Heq. apply lookup_insert_eq.
  - apply lookup_insert_ne. exact Hne.
Qed.

Lemma full_name_truthy a : truthy_string (full_name a) = true.
Proof.
  unfold full_name. destruct (AuthorRecord.first_name a); reflexivity.
Qed.

(** X13. The enriched rows are the books in their order, each with the
    full name of its author: of the last author listed under the book's
    [author_id], or [Unknown Author] when no author has that id. *)
Theorem enriched_author_names p :
  map EnrichedBook.book (enrichedBooks p) = books p /\
  forall row,
    In row (enrichedBooks p) ->
    EnrichedBook.author_name row =
    match List.find (fun a => AuthorRecord.id a =? Book.author_id (EnrichedBook.book row))
                    (rev (authors p)) with
    | Some a => full_name a
    | None => "Unknown Author"
    end.
Proof.
  unfold enrichedBooks. split.
  - rewrite map_map. simpl. apply map_id.
  - intros row Hrow. apply in_map_iff in Hrow as (book & <- & _). simpl.
    unfold authorMap. rewrite authorMap_from.
    destruct (List.find _ (rev (authors p))) as [a | ]; [| reflexivity].
    unfold or_default. rewrite full_name_truthy. reflexivity.
Qed.

Lemma enriched_author_names_books p :
  map EnrichedBook.book (enrichedBooks p) = books p.
Proof. unfold enrichedBooks. rewrite map_map. simpl. apply map_id. Qed.

Lemma with_name_same book : with_name book (Book.name book) = book.
Proof. destruct book; reflexivity. Qed.

Lemma same_id_same_book (books : list Book.t) b1 b2 :
  List.NoDup (map Book.id books) ->
  In b1 books -> In b2 books -> Book.id b1 = Book.id b2 -> b1 = b2.
Proof.
  induction books as [ | b books IH]; intros Hnd H1 H2 Hid; [destruct H1 |].
  inversion Hnd as [ | ? ? Hnotin Hrest]; subst.
  destruct H1 as [-> | H1], H2 as [-> | H2]; auto.
  - exfalso. apply Hnotin. rewrite Hid. apply in_map. exact H2.
  - exfalso. apply Hnotin. rewrite <- Hid. apply in_map. exact H1.
Qed.

(** X14. Saving renames only the books with the saved id, to the typed
    name: ids, authors, page counts and order are kept, every other book
    is unchanged, an id that no book has changes nothing, and the table
    leaves edit mode. *)
Theorem save_renames_only_target id p :
  map Book.id (books (handleSave id p)) = map Book.id (books p) /\
  map Book.author_id (books (handleSave id p)) = map Book.author_id (books p) /\
  map Book.page_count (books (handleSave id p)) = map Book.page_count (books p) /\
  (forall b, In b (books (handleSave id p)) ->
             Book.id b = id -> Book.name b = editName p) /\
  (forall b, In b (books p) -> Book.id b <> id -> In b (books (handleSave id p))) /\
  (~ In id (map Book.id (books p)) -> books (handleSave id p) = books p) /\
  editingRowId (handleSave id p) = None /\
  editName (handleSave id p) = EmptyString.
Proof.
  unfold handleSave. simpl.
  split; [| split; [| split]];
    try (rewrite map_map; apply map_ext; intros b;
         destruct (Book.id b =? id); reflexivity).
  split; [| split; [| split; [| split; reflexivity]]].
  - intros b Hb Hid. apply in_map_iff in Hb as (b0 & <- & _).
    destruct (Z.eqb_spec (Book.id b0) id) as [_ | Hne]; [reflexivity |].
    contradiction.
  - intros b Hb Hid. apply in_map_iff. exists b. split; [| exact Hb].
    destruct (Z.eqb_spec (Book.id b) id); [contradiction | reflexivity].
  - intros Hnotin. rewrite <- (map_id (books p)) at 2.
    apply map_ext_in. intros b Hb.
    destruct (Z.eqb_spec (Book.id b) id) as [Heq | _]; [| reflexivity].
    exfalso. apply Hnotin. rewrite <- Heq. apply in_map. exact Hb.
Qed.

(** X15. With distinct book ids, opening a row for editing and saving at
    once, by the button or by the Enter key, leaves the books as they
    were. *)
Theorem edit_then_save_changes_nothing p row :
  List.NoDup (map Book.id (books p)) ->
  In row (enrichedBooks p) ->
  books (handleSave (Book.id (EnrichedBook.book row)) (handleEdit row p)) = books p /\
  books (onKeyDown "Enter" row (handleEdit row p)) = books p.
Proof.
  intros Hnd Hrow.
  assert (Hbook : In (EnrichedBook.book row) (books p)).
  { rewrite <- (enriched_author_names_books p). apply in_map. exact Hrow. }
  assert (Hsave : books (handleSave (Book.id (EnrichedBook.book row))
                                    (handleEdit row p)) = books p).
  { unfold handleSave, handleEdit. simpl.
    rewrite <- (map_id (books p)) at 2.
    apply map_ext_in. intros b Hb.
    destruct (Z.eqb_spec (Book.id b) (Book.id (EnrichedBook.book row)))
      as [Heq | _]; [| reflexivity].
    rewrite <- (same_id_same_book (books p) b (EnrichedBook.book row) Hnd Hb Hbook Heq).
    apply with_name_same. }
  split; [exact Hsave | exact Hsave].
Qed.

Lemma edit_then_save_changes_nothing_witness :
  books (handleSave 42 (handleEdit dune_row table)) = books table /\
  books (onKeyDown "Enter" dune_row (handleEdit dune_row table)) = books table.
Proof.
  apply (edit_then_save_changes_nothing table dune_row).
  - repeat constructor; simpl; intuition discriminate.
  - left. unfold authorMap. simpl. rewrite lookup_insert_eq. reflexivity.
Defined.

End BooksTableFacts.

(* ===================================================================== *)
(** * Blank and case-insensitive search terms                             *)
(* ===================================================================== *)

Module SearchFacts.

Import NotesSearch MoreSpec MoreSamples.

Lemma blank_trimStart s : blank (trimStart s) = blank s.
Proof.
  induction s as [ | c s IH]; simpl; [reflexivity |].
  destruct (is_whitespace c) eqn:Hc; simpl; [exact IH | now rewrite Hc].
Qed.

Lemma truthy_trimEnd s : truthy_string (trimEnd s) = negb (blank s).
Proof.
  induction s as [ | c s IH]; simpl; [reflexivity |].
  destruct (trimEnd s) eqn:Hend; simpl in *.
  - apply (f_equal negb) in IH. rewrite negb_involutive in IH. simpl in IH.
    rewrite <- IH, andb_true_r. destruct (is_whitespace c); reflexivity.
  - apply (f_equal negb) in IH. rewrite negb_involutive in IH. simpl in IH.
    rewrite <- IH, andb_false_r. reflexivity.
Qed.

(** [s.trim()] is truthy exactly when [s] is not blank. *)
Lemma truthy_trim s : truthy_string (trim s) = negb (blank s).
Proof. unfold trim. rewrite truthy_trimEnd, blank_trimStart. reflexivity. Qed.

Lemma is_whitespace_lower c : is_whitespace (lower_char c) = is_whitespace c.
Proof. destruct c as [[] [] [] [] [] [] [] []]; reflexivity. Qed.

Lemma blank_lower s : blank (toLowerCase s) = blank s.
Proof.
  induction s as [ | c s IH]; simpl; [reflexivity |].
  rewrite is_whitespace_lower, IH. reflexivity.
Qed.

Lemma truthy_lower s : truthy_string (toLowerCase s) = truthy_string s.
Proof. destruct s; reflexivity. Qed.

(** X16. The notes' search keeps the rows in their order, returns all of
    them for an empty term, and otherwise exactly the rows where the
    lower-cased term occurs in the lower-cased name, the lower-cased author
    name, the page count or the id written in decimal. *)
Theorem notes_search_selects term rows :
  filteredBooks EmptyString rows = rows /\
  sublist (filteredBooks term rows) rows /\
  (truthy_string term = true ->
   forall row,
     In row (filteredBooks term rows) <->
     In row rows /\
     (includes (toLowerCase (NotesRow.name row)) (toLowerCase term) = true \/
      (exists a, NotesRow.author_name row = Some a /\
                 includes (toLowerCase a) (toLowerCase term) = true) \/
      includes (toString (NotesRow.page_count row)) (toLowerCase term) = true \/
      includes (toString (NotesRow.id row)) (toLowerCase term) = true)).
Proof.
  split; [reflexivity |]. split.
  - unfold filteredBooks. destruct (negb (truthy_string term)).
    + reflexivity.
    + apply InventoryFacts.filter_sublist.
  - intros Hterm row. unfold filteredBooks. rewrite Hterm. simpl.
    rewrite filter_In. unfold row_matches, or_empty, or_default.
    assert (Hlow : truthy_string (toLowerCase term) = true)
      by (rewrite truthy_lower; exact Hterm).
    assert (Hauthor :
              includes
                match toLowerCase <$> NotesRow.author_name row with
                | Some s => if truthy_string s then s else EmptyString
                | None => EmptyString
                end (toLowerCase term) = true <->
              exists a, NotesRow.author_name row = Some a /\
                        includes (toLowerCase a) (toLowerCase term) = true).
    { destruct (NotesRow.author_name row) as [a | ]; simpl.
      - destruct (truthy_string (toLowerCase a)) eqn:Ha.
        + split; [intros Hi; exists a; auto | intros (a' & [= <-] & Hi); exact Hi].
        + destruct (toLowerCase a) eqn:Hla; [| discriminate Ha].
          split; [intros Hi; exists a; rewrite Hla; auto |].
          intros (a' & [= <-] & Hi). rewrite Hla in Hi. exact Hi.
      - destruct (toLowerCase term); [discriminate Hlow |].
        split; [discriminate | intros (who & Hwho & _); discriminate Hwho]. }
    assert (Hsame : forall s, (if truthy_string s then s else EmptyString) = s)
      by (intros []; reflexivity).
    rewrite !Hsame, !orb_true_iff, Hauthor. tauto.
Qed.

(** X17. The notes' search does not depend on the case of the term: two
    terms with the same lower-case form select the same rows. *)
Theorem notes_search_ignores_case t1 t2 rows :
  toLowerCase t1 = toLowerCase t2 ->
  filteredBooks t1 rows = filteredBooks t2 rows.
Proof.
  intros Hlow. unfold filteredBooks.
  rewrite <- (truthy_lower t1), <- (truthy_lower t2), Hlow. reflexivity.
Qed.

Lemma notes_search_ignores_case_witness :
  filteredBooks "DUNE" notes_rows = filteredBooks "dune" notes_rows.
Proof.
  apply (notes_search_ignores_case "DUNE" "dune" notes_rows). reflexivity.
Defined.

(** X18. The search of the add dialog does not depend on the case of the
    term either: two terms with the same lower-case form give the same
    candidates. *)
Theorem candidate_search_ignores_case st t1 t2 :
  toLowerCase t1 = toLowerCase t2 ->
  Inventory.filteredAvailableBooks (Inventory.setBookSearchTerm t1 st)
  = Inventory.filteredAvailableBooks (Inventory.setBookSearchTerm t2 st).
Proof.
  intros Hlow. unfold Inventory.filteredAvailableBooks. simpl.
  rewrite !truthy_trim, <- (blank_lower t1), <- (blank_lower t2), Hlow.
  reflexivity.
Qed.

Lemma candidate_search_ignores_case_witness :
  Inventory.filteredAvailableBooks
    (Inventory.setBookSearchTerm "DUNE" InventorySpec.empty_store)
  = Inventory.filteredAvailableBooks
      (Inventory.setBookSearchTerm "dune" InventorySpec.empty_store).
Proof.
  apply (candidate_search_ignores_case InventorySpec.empty_store "DUNE" "dune").
  reflexivity.
Defined.

(** X19. A search term of white space only gives the same candidates as
    no search term. *)
Theorem blank_term_is_no_term st t :
  blank t = true ->
  Inventory.filteredAvailableBooks (Inventory.setBookSearchTerm t st)
  = Inventory.filteredAvailableBooks (Inventory.setBookSearchTerm EmptyString st).
Proof.
  intros Hblank. unfold Inventory.filteredAvailableBooks. simpl.
  rewrite truthy_trim, Hblank. reflexivity.
Qed.

Lemma blank_term_is_no_term_witness :
  Inventory.filteredAvailableBooks
    (Inventory.setBookSearchTerm "   " InventorySpec.empty_store)
  = Inventory.filteredAvailableBooks
      (Inventory.setBookSearchTerm EmptyString InventorySpec.empty_store).
Proof.
  apply (blank_term_is_no_term InventorySpec.empty_store "   "). reflexivity.
Defined.

End SearchFacts.

(* ===================================================================== *)
(** * Further properties of the inventory handlers                        *)
(* ===================================================================== *)

Module InventoryMore.

Import Inventory InventorySpec MoreInventory.

Lemma filter_all {A} (p : A -> bool) l :
  (forall x, In x l -> p x = true) -> List.filter p l = l.
Proof.
  induction l as [ | a l IH]; [reflexivity |].
  intros Hall. simpl. rewrite (Hall a (or_introl eq_refl)).
  f_equal. apply IH. intros x Hx. apply Hall. right. exact Hx.
Qed.

Lemma no_entry_all_others st bookId inv :
  entries_of st bookId inv = [] ->
  forall item, In item inv -> is_entry st bookId item = false.
Proof.
  unfold entries_of. intros Hnone item Hitem.
  destruct (is_entry st bookId item) eqn:Hentry; [| reflexivity].
  assert (Hin : In item (List.filter (is_entry st bookId) inv))
    by (apply filter_In; auto).
  rewrite Hnone in Hin. destruct Hin.
Qed.

(** The test of a row only reads the route parameter. *)
Lemma is_entry_same_store st st' bookId item :
  storeId st' = storeId st -> is_entry st' bookId item = is_entry st bookId item.
Proof. intros Hstore. unfold is_entry. rewrite Hstore. reflexivity. Qed.

(** X20. Each dialog applies its change once: a second Save right after
    the first changes nothing, since the first one resets the form, and
    Save after Cancel changes nothing either. *)
Theorem dialogs_apply_once st :
  handleAddBook (handleAddBook st) = handleAddBook st /\
  handleSaveEdit (handleSaveEdit st) = handleSaveEdit st /\
  confirmDelete (confirmDelete st) = confirmDelete st /\
  handleAddBook (closeAddModal st) = closeAddModal st /\
  handleSaveEdit (closeEditModal st) = closeEditModal st /\
  confirmDelete (closeDeleteModal st) = closeDeleteModal st.
Proof.
  split; [| split; [| split; [| repeat split]]].
  - unfold handleAddBook.
    destruct (truthy_string (selectedBookId st) && truthy_string (newPrice st))
      eqn:Hform; [reflexivity |].
    rewrite Hform. reflexivity.
  - unfold handleSaveEdit.
    destruct (editingBook st) as [book | ] eqn:Hbook; [| rewrite Hbook; reflexivity].
    destruct (truthy_string (editPrice st)) eqn:Hprice; [reflexivity |].
    rewrite Hbook, Hprice. reflexivity.
  - unfold confirmDelete.
    destruct (deletingBook st) as [book | ] eqn:Hbook; [reflexivity |].
    rewrite Hbook. reflexivity.
Qed.

(** X21. Removing a book removes every row of the store for that book and
    nothing else: the remaining rows are the other rows, in their order,
    and removing the same book again changes nothing. *)
Theorem delete_removes_exactly bookId st :
  entries_of st bookId (inventory (handleDeleteBook bookId st)) = [] /\
  (forall item, In item (inventory (handleDeleteBook bookId st)) <->
                In item (inventory st) /\ is_entry st bookId item = false) /\
  sublist (inventory (handleDeleteBook bookId st)) (inventory st) /\
  inventory (handleDeleteBook bookId (handleDeleteBook bookId st))
    = inventory (handleDeleteBook bookId st).
Proof.
  assert (Hmem : forall item,
             In item (inventory (handleDeleteBook bookId st)) <->
             In item (inventory st) /\ is_entry st bookId item = false).
  { intros item. unfold handleDeleteBook. simpl.
    rewrite filter_In, negb_true_iff. reflexivity. }
  split; [| split; [exact Hmem | split]].
  - apply InventoryFacts.filter_none. intros item Hitem.
    apply Hmem in Hitem as [_ Hentry]. exact Hentry.
  - unfold handleDeleteBook. simpl. apply InventoryFacts.filter_sublist.
  - unfold handleDeleteBook at 1. simpl.
    apply filter_all. intros item Hitem.
    apply Hmem in Hitem as [_ Hentry].
    rewrite (is_entry_same_store st (handleDeleteBook bookId st)) by reflexivity.
    rewrite Hentry. reflexivity.
Qed.



(** X23. Changing a price keeps the rows, their order, their ids and their
    (store, book) pairs; every row of the store for the book then carries
    the new price, and every other row is unchanged. *)
Theorem edit_changes_only_the_price bookId p st :
  length (inventory (handleEditPrice bookId p st)) = length (inventory st) /\
  map Item.id (inventory (handleEditPrice bookId p st)) = map Item.id (inventory st) /\
  map pair_of (inventory (handleEditPrice bookId p st)) = map pair_of (inventory st) /\
  (forall item, In item (entries_of st bookId (inventory (handleEditPrice bookId p st))) ->
                Item.price item = p) /\
  List.filter (fun item => negb (is_entry st bookId item))
              (inventory (handleEditPrice bookId p st))
  = List.filter (fun item => negb (is_entry st bookId item)) (inventory st).
Proof.
  unfold handleEditPrice. simpl.
  split; [apply length_map |].
  split; [rewrite map_map; apply map_ext; intros item;
          destruct (is_entry st bookId item); reflexivity |].
  split; [rewrite map_map; apply map_ext; intros item;
          destruct (is_entry st bookId item); reflexivity |].
  split.
  - intros item Hitem. unfold entries_of in Hitem.
    apply filter_In in Hitem as [Hitem Hentry].
    apply in_map_iff in Hitem as (old & <- & _).
    destruct (is_entry st bookId old) eqn:Hold; [reflexivity |].
    rewrite Hold in Hentry. discriminate Hentry.
  - induction (inventory st) as [ | item inv IH]; [reflexivity |].
    simpl. destruct (is_entry st bookId item) eqn:Hold; simpl.
    + replace (is_entry st bookId (Item.with_price item p)) with true
        by (symmetry; exact Hold).
      simpl. exact IH.
    + rewrite Hold. simpl. f_equal. exact IH.
Qed.

(** X24. For a book that has no row in the store, changing the price and
    removing are silent no-ops on the collection. *)
Theorem absent_book_is_left_alone bookId p st :
  entries_of st bookId (inventory st) = [] ->
  inventory (handleEditPrice bookId p st) = inventory st /\
  inventory (handleDeleteBook bookId st) = inventory st.
Proof.
  intros Hnone. pose proof (no_entry_all_others st bookId _ Hnone) as Hothers.
  unfold handleEditPrice, handleDeleteBook. simpl. split.
  - rewrite <- (map_id (inventory st)) at 2. apply map_ext_in.
    intros item Hitem. rewrite (Hothers item Hitem). reflexivity.
  - apply filter_all. intros item Hitem. rewrite (Hothers item Hitem). reflexivity.
Qed.

Lemma absent_book_is_left_alone_witness :
  inventory (handleEditPrice 7 (Finite 100 0) added_once) = inventory added_once /\
  inventory (handleDeleteBook 7 added_once) = inventory added_once.
Proof.
  apply (absent_book_is_left_alone 7 (Finite 100 0) added_once). reflexivity.
Defined.

(** X25. When the route parameter is not a number, no row belongs to the
    page's store: no price change and no removal alters the collection,
    and every catalog book is a candidate of the add dialog. *)
Theorem non_numeric_store_matches_nothing st :
  parseInt (storeId st) (Some 10) = NaNi ->
  (forall bookId p, inventory (handleEditPrice bookId p st) = inventory st) /\
  (forall bookId, inventory (handleDeleteBook bookId st) = inventory st) /\
  availableBooks st = books st.
Proof.
  intros Hnan.
  assert (Hnone : forall bookId item, is_entry st bookId item = false).
  { intros bookId item. unfold is_entry. rewrite Hnan.
    destruct (Item.store_id item); reflexivity. }
  split; [| split].
  - intros bookId p. unfold handleEditPrice. simpl.
    rewrite <- (map_id (inventory st)) at 2. apply map_ext.
    intros item. rewrite Hnone. reflexivity.
  - intros bookId. unfold handleDeleteBook. simpl.
    apply filter_all. intros item _. rewrite Hnone. reflexivity.
  - unfold availableBooks, booksInStore. rewrite Hnan.
    rewrite (InventoryFacts.filter_none _ (inventory st)).
    + apply filter_all. intros b _. reflexivity.
    + intros item _. destruct (Item.store_id item); reflexivity.
Qed.

Lemma non_numeric_store_matches_nothing_witness :
  (forall bookId p, inventory (handleEditPrice bookId p unnamed_store)
                    = inventory unnamed_store) /\
  (forall bookId, inventory (handleDeleteBook bookId unnamed_store)
                  = inventory unnamed_store) /\
  availableBooks unnamed_store = books unnamed_store.
Proof.
  apply (non_numeric_store_matches_nothing unnamed_store). reflexivity.
Defined.

(** X26. Adding an offered book and then removing it gives back the
    collection as it was before. *)
Theorem add_then_delete_restores st b sid :
  parseInt (storeId st) None = Int sid ->
  parseInt (storeId st) (Some 10) = Int sid ->
  In b (availableBooks st) ->
  parseInt (selectedBookId st) None = Int (Book.id b) ->
  truthy_string (newPrice st) = true ->
  inventory (handleDeleteBook (Book.id b) (handleAddBook st)) = inventory st.
Proof.
  intros Hsid Hsid10 Hb Hsel Hprice.
  pose proof (InventoryFacts.available_has_no_entry st b Hb) as Hnone.
  pose proof (no_entry_all_others st (Book.id b) _ Hnone) as Hothers.
  assert (Hinv : inventory (handleAddBook st) = (inventory st ++ [newItem st])%list).
  { rewrite InventoryFacts.handleAddBook_inventory,
      (InventoryFacts.parseInt_truthy _ _ _ Hsel), Hprice. reflexivity. }
  assert (Hnew : is_entry st (Book.id b) (newItem st) = true).
  { apply (InventoryFacts.is_entry_iff st sid); [exact Hsid10 |].
    unfold pair_of, newItem. simpl. rewrite Hsid, Hsel. reflexivity. }
  unfold handleDeleteBook. simpl. rewrite Hinv, List.filter_app. simpl.
  rewrite !(is_entry_same_store st (handleAddBook st))
    by apply InventoryFacts.handleAddBook_storeId.
  rewrite Hnew. simpl. rewrite app_nil_r.
  apply filter_all. intros item Hitem.
  rewrite (is_entry_same_store st (handleAddBook st))
    by apply InventoryFacts.handleAddBook_storeId.
  rewrite (Hothers item Hitem). reflexivity.
Qed.

Lemma add_then_delete_restores_witness :
  inventory (handleDeleteBook 42 added_once) = inventory empty_store.
Proof.
  apply (add_then_delete_restores empty_store MoreSamples.dune 5);
    [reflexivity | reflexivity | left; reflexivity | reflexivity | reflexivity].
Defined.

Lemma seq_snoc start n : seq start (S n) = (seq start n ++ [(start + n)%nat])%list.
Proof.
  revert start. induction n as [ | n IH]; intros start.
  - simpl. rewrite Nat.add_0_r. reflexivity.
  - change (seq start (S (S n))) with (start :: seq (S start) (S n)).
    rewrite IH. simpl. rewrite Nat.add_succ_r. reflexivity.
Qed.

(** X27. A collection numbered 1..n stays numbered 1..n under adds and
    price changes: the new row gets n+1, so the ids stay distinct as long
    as no row is removed. *)
Theorem numbering_kept_without_delete st :
  numbered (inventory st) ->
  numbered (inventory (handleAddBook st)) /\
  numbered (inventory (handleSaveEdit st)) /\
  List.NoDup (map Item.id (inventory (handleAddBook st))).
Proof.
  unfold numbered. intros Hnum.
  assert (Hadd : map Item.id (inventory (handleAddBook st))
                 = map Z.of_nat (seq 1 (length (inventory (handleAddBook st))))).
  { rewrite InventoryFacts.handleAddBook_inventory.
    destruct (truthy_string (selectedBookId st) && truthy_string (newPrice st));
      [| exact Hnum].
    rewrite List.map_app, List.length_app, Hnum. simpl.
    rewrite Nat.add_1_r, seq_snoc, List.map_app. simpl.
    f_equal. f_equal. lia. }
  split; [exact Hadd |]. split.
  - rewrite InventoryFacts.handleSaveEdit_inventory.
    destruct (editingBook st) as [book | ]; [| exact Hnum].
    destruct (truthy_string (editPrice st)); [| exact Hnum].
    rewrite length_map, map_map, <- Hnum. apply map_ext.
    intros item. destruct (is_entry st (StoreBook.id book) item); reflexivity.
  - rewrite Hadd. apply List.NoDup_map_inv with (f := Z.to_nat).
    rewrite map_map. erewrite map_ext; [| intros n; apply Nat2Z.id].
    rewrite map_id. apply seq_NoDup.
Qed.

Lemma numbering_kept_without_delete_witness :
  numbered (inventory added_once) /\
  numbered (inventory (handleSaveEdit empty_store)) /\
  List.NoDup (map Item.id (inventory added_once)).
Proof.
  apply (numbering_kept_without_delete empty_store). reflexivity.
Defined.

End InventoryMore.

(* ===================================================================== *)
(** * Properties of the handlers quoted in the notes                      *)
(* ===================================================================== *)

Module NotesFacts.

Import InventoryNotes MoreInventory.

(** X28. The notes' [handleAddBook] keeps the row ids distinct, and it
    completes exactly when the form is incomplete or the selected id is
    the [book_id] of a catalog book; otherwise reading the missing book
    throws. *)
Theorem notes_add_keeps_ids_distinct st :
  (forall st', handleAddBook st = Normal st' ->
               List.NoDup (map NotesRow.id (storeBooks st)) ->
               List.NoDup (map NotesRow.id (storeBooks st'))) /\
  ((exists st', handleAddBook st = Normal st') <->
   truthy_string (selectedBookId st) && truthy_string (newPrice st) = false \/
   exists book, In book (books st) /\
                parseInt (selectedBookId st) None = Int (NotesBook.book_id book)).
Proof.
  split.
  - intros st' Hrun Hnd. unfold handleAddBook in Hrun.
    destruct (truthy_string (selectedBookId st) && truthy_string (newPrice st));
      [| injection Hrun as <-; exact Hnd].
    destruct (List.find _ (books st)) as [book | ]; [| discriminate Hrun].
    injection Hrun as <-. simpl. rewrite List.map_app. simpl.
    apply List.NoDup_app; [exact Hnd | repeat constructor; intros [] |].
    intros x Hx [<- | []].
    pose proof (InventoryFacts.notes_new_id_fresh _ _ Hx) as Hlt. lia.
  - unfold handleAddBook.
    destruct (truthy_string (selectedBookId st) && truthy_string (newPrice st)).
    + destruct (List.find _ (books st)) as [book | ] eqn:Hfind.
      * split; [| intros _; eexists; reflexivity].
        intros _. right. apply find_some in Hfind as [Hin Heq].
        exists book. split; [exact Hin |].
        destruct (parseInt (selectedBookId st) None) as [ | z];
          [discriminate Heq |].
        simpl in Heq. apply Z.eqb_eq in Heq. congruence.
      * split; [intros [st' Hrun]; discriminate Hrun |].
        intros [Hform | (book & Hin & Hsel)]; [discriminate Hform |].
        pose proof (find_none _ _ Hfind book Hin) as Hno. simpl in Hno.
        rewrite Hsel in Hno. simpl in Hno. rewrite Z.eqb_refl in Hno.
        discriminate Hno.
    + split; [intros _; left; reflexivity | intros _; eexists; reflexivity].
Qed.

(** X29. In the notes' page, adding a book and then deleting the new row
    gives back the rows as they were: the new id is not shared with any
    other row. *)
Theorem notes_add_then_delete_restores st st' :
  truthy_string (selectedBookId st) = true ->
  truthy_string (newPrice st) = true ->
  handleAddBook st = Normal st' ->
  exists row,
    storeBooks st' = (storeBooks st ++ [row])%list /\
    storeBooks (handleDeleteBook (notes_deleting row st')) = storeBooks st.
Proof.
  intros Hsel Hprice Hrun.
  destruct (InventoryFacts.notes_add_numbers_above st st' Hsel Hprice Hrun)
    as (row & Hrows & Hfresh & _).
  exists row. split; [exact Hrows |].
  unfold handleDeleteBook, notes_deleting. simpl.
  rewrite Hrows, List.filter_app. simpl. rewrite Z.eqb_refl. simpl.
  rewrite app_nil_r. apply InventoryMore.filter_all.
  intros r Hr. specialize (Hfresh r Hr).
  destruct (Z.eqb_spec (NotesRow.id r) (NotesRow.id row)); [lia | reflexivity].
Qed.

Lemma notes_add_then_delete_restores_witness :
  exists st' row,
    handleAddBook notes_add = Normal st' /\
    storeBooks st' = (storeBooks notes_add ++ [row])%list /\
    storeBooks (handleDeleteBook (notes_deleting row st')) = storeBooks notes_add.
Proof.
  eexists.
  destruct (notes_add_then_delete_restores notes_add _ eq_refl eq_refl eq_refl)
    as (row & Hrows & Hback).
  exists row. split; [reflexivity |]. split; [exact Hrows | exact Hback].
Defined.

End NotesFacts.
